(** * HTML checker: a shallow embedding of [src/checkers/htmlchecker.py]

    The checker fetches an HTML page, extracts the latest version and its
    download URL with operator-supplied regular expressions, and records the
    outcome on the external-data object.

    Conventions of the embedding.
    - Python [str] is [string], restricted to ASCII characters.
    - Python exceptions are values of [exn]; a computation that may raise
      returns a [result].
    - The external-data object is mutable: code that touches it is written in
      the state-and-exception monad [M], whose store also keeps the trace of
      network calls and of mutations of the object.
    - [assert] statements are active (the interpreter runs without [-O]).
    - Calls to [log.*] have no effect on any value and are left out. *)

From Stdlib Require Import ZArith NArith Strings.String Strings.Ascii List Lia Bool.
From stdpp Require Import base option list gmap strings pretty.

Open Scope string_scope.

(** ** Exceptions and results *)

(** Classes of the exceptions raised by the collaborators (aiohttp, re,
    urllib).  An exception of a collaborator carries the classes it is an
    instance of, so that an [except] clause can be modelled by membership. *)
Inductive exc_class :=
  | ClientError
  | ServerConnectionError
  | ServerDisconnectedError
  | ServerTimeoutError
  | OtherClass (name : string).

Global Instance exc_class_eq_dec : EqDecision exc_class.
Proof. solve_decision. Defined.

Inductive exn :=
  | AssertionError
  | KeyError (key : string)
  | ValueError
  | TypeError
  | AttributeError
  | Foreign (classes : list exc_class).

Global Instance exn_eq_dec : EqDecision exn.
Proof. solve_decision. Defined.

Inductive result (A : Type) :=
  | Ok (a : A)
  | Raise (e : exn).
Arguments Ok {A} a.
Arguments Raise {A} e.

Global Instance result_ret : MRet result := fun _ a => Ok a.
Global Instance result_bind : MBind result := fun _ _ f m =>
  match m with
  | Ok a => f a
  | Raise e => Raise e
  end.

Definition is_ok {A} (r : result A) : bool :=
  match r with Ok _ => true | Raise _ => false end.

(** [assert b] *)
Definition py_assert (b : bool) : result unit :=
  if b then Ok tt else Raise AssertionError.

(** ** distutils.version.LooseVersion

    The checker orders versions with [LooseVersion] of the Python standard
    library.  Its code is

<<
    component_re = re.compile(r'(\d+ | [a-z]+ | \.)', re.VERBOSE)

    def __init__(self, vstring=None):
        if vstring:
            self.parse(vstring)

    def parse(self, vstring):
        self.vstring = vstring
        components = [x for x in self.component_re.split(vstring)
                      if x and x != '.']
        for i, obj in enumerate(components):
            try:
                components[i] = int(obj)
            except ValueError:
                pass
        self.version = components

    def _cmp(self, other):
        if self.version == other.version: return 0
        if self.version < other.version: return -1
        if self.version > other.version: return 1
>>
    and [__lt__], [__gt__], [__eq__] of the base class compare the value of
    [_cmp] with 0. *)

(** A component is an [int] (a run of digits) or a [str]. *)
Inductive component :=
  | CInt (n : N)
  | CStr (s : string).

Global Instance component_eq_dec : EqDecision component.
Proof. solve_decision. Defined.

Inductive char_class := Digit | Lower | Dot | Other.

Definition classify (c : ascii) : char_class :=
  let n := N_of_ascii c in
  if (48 <=? n)%N && (n <=? 57)%N then Digit
  else if (97 <=? n)%N && (n <=? 122)%N then Lower
  else if (n =? 46)%N then Dot
  else Other.

Definition char_class_eqb (k1 k2 : char_class) : bool :=
  match k1, k2 with
  | Digit, Digit | Lower, Lower | Dot, Dot | Other, Other => true
  | _, _ => false
  end.

(** [int(obj)] on a run of ASCII digits. *)
Fixpoint int_of_digits (acc : N) (s : string) : N :=
  match s with
  | EmptyString => acc
  | String c s' => int_of_digits (10 * acc + (N_of_ascii c - 48))%N s'
  end.

(** [sys.int_max_str_digits], at its default: [int] refuses, with
    [ValueError], a text of more digits. *)
Definition int_max_str_digits : N := 4300.

(** The component made of a finished run.  A dot is a separator and is
    dropped by the filter [x and x != '.'].  [int] succeeds on the runs of
    digits that are not longer than [int_max_str_digits]; on a longer run,
    and on every other run, it raises [ValueError], which [parse] passes
    over: the component stays the text. *)
Definition flush (k : char_class) (run : string) : list component :=
  match k with
  | Dot => []
  | Digit =>
      if (N.of_nat (String.length run) <=? int_max_str_digits)%N
      then [CInt (int_of_digits 0 run)]
      else [CStr run]
  | Lower | Other => [CStr run]
  end.

(** [component_re.split]: the pieces are the maximal runs of digits, the
    maximal runs of lower-case letters, the single dots, and the text between
    them.  [split_components k run s] scans [s] while [run], of class [k], is
    the run being read. *)
Fixpoint split_components (k : char_class) (run : string) (s : string)
  : list component :=
  match s with
  | EmptyString => flush k run
  | String c s' =>
      let k' := classify c in
      if char_class_eqb k' k && negb (char_class_eqb k' Dot)
      then split_components k (run +:+ String c EmptyString) s'
      else flush k run ++ split_components k' (String c EmptyString) s'
  end.

Definition parse (vstring : string) : list component :=
  split_components Dot "" vstring.

(** A [LooseVersion] object: the attribute [version] is set by [parse] only,
    and [__init__] skips [parse] when [vstring] is falsy. *)
Record LooseVersion := mkLooseVersion {
  vstring : option string;
  version : option (list component)
}.

Definition LooseVersion_init (s : string) : LooseVersion :=
  match s with
  | EmptyString => mkLooseVersion None None
  | _ => mkLooseVersion (Some s) (Some (parse s))
  end.

(** [self.version]: a missing attribute raises [AttributeError]. *)
Definition get_version (v : LooseVersion) : result (list component) :=
  match version v with
  | Some l => Ok l
  | None => Raise AttributeError
  end.

(** [x == y] on components: an [int] never equals a [str]. *)
Definition component_eqb (x y : component) : bool :=
  match x, y with
  | CInt a, CInt b => (a =? b)%N
  | CStr s, CStr t => String.eqb s t
  | _, _ => false
  end.

(** [x < y] on components: ordering an [int] against a [str] raises
    [TypeError]. *)
Definition component_lt (x y : component) : result bool :=
  match x, y with
  | CInt a, CInt b => Ok (a <? b)%N
  | CStr s, CStr t => Ok (String.ltb s t)
  | _, _ => Raise TypeError
  end.

Definition component_gt (x y : component) : result bool :=
  match x, y with
  | CInt a, CInt b => Ok (b <? a)%N
  | CStr s, CStr t => Ok (String.ltb t s)
  | _, _ => Raise TypeError
  end.

(** List comparison of Python: the first position where the items differ
    (by [==]) decides, with the item comparison; without such a position the
    lengths decide. *)
Fixpoint list_eqb (xs ys : list component) : bool :=
  match xs, ys with
  | [], [] => true
  | x :: xs', y :: ys' => component_eqb x y && list_eqb xs' ys'
  | _, _ => false
  end.

Fixpoint list_lt (xs ys : list component) : result bool :=
  match xs, ys with
  | [], [] => Ok false
  | [], _ :: _ => Ok true
  | _ :: _, [] => Ok false
  | x :: xs', y :: ys' =>
      if component_eqb x y then list_lt xs' ys' else component_lt x y
  end.

Fixpoint list_gt (xs ys : list component) : result bool :=
  match xs, ys with
  | [], [] => Ok false
  | [], _ :: _ => Ok false
  | _ :: _, [] => Ok true
  | x :: xs', y :: ys' =>
      if component_eqb x y then list_gt xs' ys' else component_gt x y
  end.

(** [_cmp]: the value is [None] when no branch returns. *)
Definition LooseVersion_cmp (v w : LooseVersion) : result (option Z) :=
  a ← get_version v;
  b ← get_version w;
  if list_eqb a b then Ok (Some 0%Z)
  else
    lt ← list_lt a b;
    if (lt : bool) then Ok (Some (-1)%Z)
    else
      gt ← list_gt a b;
      if (gt : bool) then Ok (Some 1%Z) else Ok None.

(** [c < 0], [c > 0], [c == 0] on the value of [_cmp]; ordering [None]
    against 0 raises [TypeError]. *)
Definition LooseVersion_lt (v w : LooseVersion) : result bool :=
  c ← LooseVersion_cmp v w;
  match c with
  | Some z => Ok (z <? 0)%Z
  | None => Raise TypeError
  end.

Definition LooseVersion_gt (v w : LooseVersion) : result bool :=
  c ← LooseVersion_cmp v w;
  match c with
  | Some z => Ok (0 <? z)%Z
  | None => Raise TypeError
  end.

Definition LooseVersion_eq (v w : LooseVersion) : result bool :=
  c ← LooseVersion_cmp v w;
  match c with
  | Some z => Ok (z =? 0)%Z
  | None => Ok false
  end.

(** The comparison of two version strings, as the checker's sort key makes
    it. *)
Definition version_lt (a b : string) : result bool :=
  LooseVersion_lt (LooseVersion_init a) (LooseVersion_init b).

Definition version_gt (a b : string) : result bool :=
  LooseVersion_gt (LooseVersion_init a) (LooseVersion_init b).

Definition version_eq (a b : string) : result bool :=
  LooseVersion_eq (LooseVersion_init a) (LooseVersion_init b).

(** ** string.Template

    [Template.substitute] rewrites, from left to right, the matches of the
    class attribute [pattern]: the delimiter [$] followed by
    - a second [$] (group [escaped]), which becomes [$];
    - an identifier (group [named]) or an identifier in braces (group
      [braced]), which becomes [str(mapping[name])] and raises [KeyError]
      for a missing name;
    - anything else (group [invalid], which matches the empty text), which
      raises [ValueError].
    An identifier is a letter or an underscore followed by letters, digits
    and underscores (ASCII, case ignored); the alternatives are tried in
    this order and the identifier is as long as possible. *)

Inductive token :=
  | TLit (c : ascii)
  | TEscaped
  | TNamed (name : string)
  | TBraced (name : string)
  | TInvalid.

Definition is_id_start (c : ascii) : bool :=
  let n := N_of_ascii c in
  (n =? 95)%N || ((97 <=? n)%N && (n <=? 122)%N) || ((65 <=? n)%N && (n <=? 90)%N).

Definition is_id_char (c : ascii) : bool :=
  let n := N_of_ascii c in
  is_id_start c || ((48 <=? n)%N && (n <=? 57)%N).

Definition is_dollar (c : ascii) : bool := (N_of_ascii c =? 36)%N.
Definition is_lbrace (c : ascii) : bool := (N_of_ascii c =? 123)%N.
Definition is_rbrace (c : ascii) : bool := (N_of_ascii c =? 125)%N.

(** What the scan has read since the last finished token. *)
Inductive lex_mode :=
  | MText
  | MDollar
  | MNamed (name : string)
  | MBraceOpen
  | MBraced (name : string).

Fixpoint literals (s : string) : list token :=
  match s with
  | EmptyString => []
  | String c s' => TLit c :: literals s'
  end.

(** The tokens of a pending, unfinished match at the end of the text or at a
    character that cannot continue it.  An unclosed brace makes the delimiter
    ill-formed; the text after the delimiter is then literal. *)
Definition lex_pending (m : lex_mode) : list token :=
  match m with
  | MText => []
  | MDollar => [TInvalid]
  | MNamed name => [TNamed name]
  | MBraceOpen => TInvalid :: literals "{"
  | MBraced name => TInvalid :: literals ("{" +:+ name)
  end.

Fixpoint lex (m : lex_mode) (s : string) : list token :=
  match s with
  | EmptyString => lex_pending m
  | String c s' =>
      let restart :=
        if is_dollar c then lex MDollar s' else TLit c :: lex MText s' in
      match m with
      | MText => restart
      | MDollar =>
          if is_dollar c then TEscaped :: lex MText s'
          else if is_id_start c then lex (MNamed (String c EmptyString)) s'
          else if is_lbrace c then lex MBraceOpen s'
          else TInvalid :: restart
      | MNamed name =>
          if is_id_char c then lex (MNamed (name +:+ String c EmptyString)) s'
          else TNamed name :: restart
      | MBraceOpen =>
          if is_id_start c then lex (MBraced (String c EmptyString)) s'
          else lex_pending m ++ restart
      | MBraced name =>
          if is_id_char c then lex (MBraced (name +:+ String c EmptyString)) s'
          else if is_rbrace c then TBraced name :: lex MText s'
          else lex_pending m ++ restart
      end
  end.

(** [str(x)] of a component. *)
Definition py_str (x : component) : string :=
  match x with
  | CInt n => pretty n
  | CStr s => s
  end.

(** [convert] of [Template.substitute] on one match. *)
Definition convert (mapping : gmap string component) (t : token)
  : result string :=
  match t with
  | TLit c => Ok (String c EmptyString)
  | TEscaped => Ok "$"
  | TNamed name | TBraced name =>
      match mapping !! name with
      | Some x => Ok (py_str x)
      | None => Raise (KeyError name)
      end
  | TInvalid => Raise ValueError
  end.

Fixpoint substitute_tokens (mapping : gmap string component) (ts : list token)
  : result string :=
  match ts with
  | [] => Ok ""
  | t :: ts' =>
      s ← convert mapping t;
      rest ← substitute_tokens mapping ts';
      Ok (s +:+ rest)
  end.

Definition Template_substitute (template : string)
  (mapping : gmap string component) : result string :=
  substitute_tokens mapping (lex MText template).

(** ** Values of the checker, and the external-data object *)

(** The values held by [checker_data]: strings and booleans. *)
Inductive value :=
  | VStr (s : string)
  | VBool (b : bool).

Global Instance value_eq_dec : EqDecision value.
Proof. solve_decision. Defined.

(** Truth value of a Python object in a condition. *)
Definition str_truthy (s : string) : bool := negb (String.eqb s "").

Definition truthy (v : value) : bool :=
  match v with
  | VStr s => str_truthy s
  | VBool b => b
  end.

Definition opt_truthy (o : option value) : bool :=
  match o with
  | Some v => truthy v
  | None => false
  end.

Definition opt_str_truthy (o : option string) : bool :=
  match o with
  | Some s => str_truthy s
  | None => false
  end.

(** Modelled from the spec: [ExternalData.State], which [lib/externaldata.py]
    declares outside the checker.  The spec gives the values [OK] and
    [BROKEN]. *)
Inductive State := OK | BROKEN.

Global Instance State_eq_dec : EqDecision State.
Proof. solve_decision. Defined.

(** Modelled from the spec: the version descriptor [ExternalFile], which
    [lib/externaldata.py] declares outside the checker: a version string and
    the resolved metadata (size, checksum, absolute URL).  The metadata call
    may leave the version unset. *)
Record ExternalFile := mkExternalFile {
  ef_url : string;
  ef_checksum : string;
  ef_size : Z;
  ef_version : option string
}.

Global Instance ExternalFile_eq_dec : EqDecision ExternalFile.
Proof. solve_decision. Defined.

(** [new_version._replace(version=v)] *)
Definition replace_version (v : string) (f : ExternalFile) : ExternalFile :=
  mkExternalFile (ef_url f) (ef_checksum f) (ef_size f) (Some v).

(** The attributes of the external-data object that the checker reads or
    writes; [new_version] is the installed descriptor. *)
Record ExternalData := mkExternalData {
  filename : string;
  checker_data : gmap string value;
  state : State;
  new_version : option ExternalFile
}.

(** ** The store and its monad *)

Inductive event :=
  | EvGet (url : value)
  | EvExtraDataInfo (url : string) (follow_redirects : bool)
  | EvSetState (s : State)
  | EvSetNewVersion (f : ExternalFile).

Global Instance event_eq_dec : EqDecision event.
Proof. solve_decision. Defined.

Definition is_mutation (e : event) : bool :=
  match e with
  | EvSetState _ | EvSetNewVersion _ => true
  | _ => false
  end.

Record store := mkStore {
  data : ExternalData;
  trace : list event
}.

Definition M (A : Type) : Type := store -> result A * store.

Global Instance M_ret : MRet M := fun _ a s => (Ok a, s).
Global Instance M_bind : MBind M := fun _ _ f m s =>
  match m s with
  | (Ok a, s') => f a s'
  | (Raise e, s') => (Raise e, s')
  end.

Definition lift {A} (r : result A) : M A := fun s => (r, s).

Definition emit (e : event) : M unit := fun s =>
  (Ok tt, mkStore (data s) (trace s ++ [e])).

Definition get_data : M ExternalData := fun s => (Ok (data s), s).

(** [external_data.state = st] *)
Definition assign_state (st : State) : M unit := fun s =>
  let d := data s in
  (Ok tt,
   mkStore (mkExternalData (filename d) (checker_data d) st (new_version d))
           (trace s ++ [EvSetState st])).

(** [try: body / except classes: handler / else: orelse] *)
Definition try_except_else {A B} (body : M A) (catches : exn -> bool)
  (handler : exn -> M B) (orelse : A -> M B) : M B := fun s =>
  match body s with
  | (Ok a, s') => orelse a s'
  | (Raise e, s') => if catches e then handler e s' else (Raise e, s')
  end.

(** [isinstance(e, classes)] for the classes of the collaborators; the
    built-in exceptions are instances of none of them. *)
Definition isinstance (e : exn) (classes : list exc_class) : bool :=
  match e with
  | Foreign cs => existsb (fun c => bool_decide (c ∈ classes)) cs
  | _ => false
  end.

(** ** The collaborators

    The regular-expression engine, the HTTP session, [urllib.parse.urljoin],
    [utils.get_extra_data_info_from_url] and the methods of [Checker] and
    [ExternalData] are not part of the checker: they are parameters.

    [pattern.findall(html)] is a list of [str] when the pattern has at most
    one group and a list of tuples of as many [str] as groups otherwise;
    [check] calls it only after asserting the number of groups, on one group
    ([findall1]) or on two ([findall2]). *)
Class Collaborators := {
  Pattern : Type;
  re_compile : value -> result Pattern;
  groups : Pattern -> nat;
  findall1 : Pattern -> string -> list string;
  findall2 : Pattern -> string -> list (string * string);
  should_check : ExternalData -> bool;
  session_get_text : value -> result string;
  urljoin : value -> string -> result string;
  get_extra_data_info_from_url : string -> bool -> result ExternalFile;
  set_new_version : ExternalFile -> ExternalData -> ExternalData
}.

(** ** The checker *)

(** [max(iterable, key=key)] on keys that are [LooseVersion] objects: one
    scan which keeps the first item whose key no later key exceeds, an item
    replacing the kept one when [key(item) > key(kept)]. *)
Fixpoint max_scan {A} (key : A -> LooseVersion) (best : A)
  (best_key : LooseVersion) (rest : list A) : result A :=
  match rest with
  | [] => Ok best
  | item :: rest' =>
      let k := key item in
      gt ← LooseVersion_gt k best_key;
      if (gt : bool) then max_scan key item k rest'
      else max_scan key best best_key rest'
  end.

Definition py_max {A} (key : A -> LooseVersion) (l : list A) : result A :=
  match l with
  | [] => Raise ValueError
  | item :: rest => max_scan key item (key item) rest
  end.

Section Checker.
Context {env : Collaborators}.

(** [_get_latest]; [findall] is [pattern.findall] at the type of its
    items, and [check] always passes [sort_key] explicitly. *)
Definition _get_latest {A} (findall : Pattern -> string -> list A)
  (html : string) (pattern : Pattern) (sort_key : option (A -> LooseVersion))
  : result (option A) :=
  let match_ := findall pattern html in
  match match_ with
  | [] => Ok None
  | first :: _ =>
      match sort_key with
      | None => Ok (Some first)
      | Some key =>
          if Nat.eqb (length match_) 1 then Ok (Some first)
          else r ← py_max key match_; Ok (Some r)
      end
  end.

(** [_get_pattern]: a missing key gives [None]; the [except KeyError]
    clause also covers the call of [re.compile]. *)
Definition _get_pattern (checker_data : gmap string value)
  (pattern_name : string) : result (option Pattern) :=
  match checker_data !! pattern_name with
  | None => Ok None
  | Some v =>
      match re_compile v with
      | Ok p => Ok (Some p)
      | Raise (KeyError _) => Ok None
      | Raise e => Raise e
      end
  end.

(** The loop of [_substitute_placeholders] from index [i] on. *)
Fixpoint fill_vars (i : nat) (version_list : list component)
  (tmpl_vars : gmap string component) : gmap string component :=
  match version_list with
  | [] => tmpl_vars
  | version_part :: rest =>
      let tmpl_vars := <["version" +:+ pretty i := version_part]> tmpl_vars in
      let tmpl_vars :=
        if Nat.eqb i 0 then <["major" := version_part]> tmpl_vars
        else if Nat.eqb i 1 then <["minor" := version_part]> tmpl_vars
        else if Nat.eqb i 2 then <["patch" := version_part]> tmpl_vars
        else tmpl_vars in
      fill_vars (S i) rest tmpl_vars
  end.

Definition tmpl_vars_of (version : string) (version_list : list component)
  : gmap string component :=
  fill_vars 0 version_list {["version" := CStr version]}.

(** [HTMLChecker._substitute_placeholders]; a template that is not a
    [str] is refused by the substitution. *)
Definition _substitute_placeholders (template_string : value)
  (version : string) : result string :=
  version_list ← get_version (LooseVersion_init version);
  let tmpl_vars := tmpl_vars_of version version_list in
  match template_string with
  | VStr t => Template_substitute t tmpl_vars
  | VBool _ => Raise TypeError
  end.

(** [call external_data.set_new_version(f)] *)
Definition call_set_new_version (f : ExternalFile) : M unit := fun s =>
  (Ok tt, mkStore (set_new_version f (data s)) (trace s ++ [EvSetNewVersion f])).

(** [utils.get_extra_data_info_from_url(url, follow_redirects, session)] *)
Definition fetch_extra_data_info (url : string) (follow_redirects : bool)
  : M ExternalFile :=
  _ ← emit (EvExtraDataInfo url follow_redirects);
  lift (get_extra_data_info_from_url url follow_redirects).

Definition update_version_catches (e : exn) : bool :=
  isinstance e [ClientError; ServerConnectionError;
                ServerDisconnectedError; ServerTimeoutError].

(** [HTMLChecker._update_version]; [None] is Python's [None]. *)
Definition _update_version (latest_version latest_url : option string)
  (follow_redirects : bool) : M unit :=
  match latest_version with
  | None => lift (Raise AssertionError)
  | Some latest_version =>
      match latest_url with
      | None => lift (Raise AssertionError)
      | Some latest_url =>
          try_except_else
            (fetch_extra_data_info latest_url follow_redirects)
            update_version_catches
            (fun _ => assign_state BROKEN)
            (fun new_version =>
               let new_version := replace_version latest_version new_version in
               call_set_new_version new_version)
      end
  end.

(** Lines 76 to 99 of [check]: the latest version and the latest URL
    drawn from the page.  A match of the combo pattern is a pair, which is
    truthy, and its first element is the URL. *)
Definition check_extraction (html : string)
  (combo_pattern version_pattern url_pattern : option Pattern)
  (url_template : option value) (sort_matches : value)
  : result (option string * option string) :=
  match combo_pattern with
  | Some combo_pattern =>
      _ ← py_assert (Nat.eqb (groups combo_pattern) 2);
      latest_pair ← _get_latest findall2 html combo_pattern
        (if truthy sort_matches
         then Some (fun m : string * string => LooseVersion_init (snd m))
         else None);
      match latest_pair with
      | Some (latest_url, latest_version) =>
          Ok (Some latest_version, Some latest_url)
      | None => Ok (None, None)
      end
  | None =>
      match version_pattern with
      | Some version_pattern =>
          _ ← py_assert (Nat.eqb (groups version_pattern) 1);
          latest_version ← _get_latest findall1 html version_pattern
            (if truthy sort_matches then Some LooseVersion_init else None);
          let via_url_pattern :=
            match url_pattern with
            | Some url_pattern =>
                _ ← py_assert (Nat.eqb (groups url_pattern) 1);
                latest_url ← _get_latest findall1 html url_pattern
                  (if truthy sort_matches then Some LooseVersion_init
                   else None);
                Ok (latest_version, latest_url)
            | None => Ok (latest_version, None)
            end in
          match latest_version, url_template with
          | Some v, Some t =>
              if str_truthy v && truthy t then
                latest_url ← _substitute_placeholders t v;
                Ok (latest_version, Some latest_url)
              else via_url_pattern
          | _, _ => via_url_pattern
          end
      | None => Ok (None, None)
      end
  end.

(** [self.session.get(url)] and [response.text()] *)
Definition fetch_text (url : value) : M string :=
  _ ← emit (EvGet url);
  lift (session_get_text url).

(** The local variables of [check] that lines 65 to 70 set. *)
Record check_locals := mkLocals {
  url : value;
  combo_pattern : option Pattern;
  version_pattern : option Pattern;
  url_pattern : option Pattern;
  url_template : option value;
  sort_matches : value
}.

(** Lines 63 to 71 of [check]: the assertions on the configuration and the
    compilation of the patterns.  A compiled pattern is truthy, [None] is
    falsy. *)
Definition check_config (external_data : ExternalData) : result check_locals :=
  _ ← py_assert (should_check external_data);
  let cd := checker_data external_data in
  url ← match cd !! "url" with
        | Some u => Ok u
        | None => Raise (KeyError "url")
        end;
  combo_pattern ← _get_pattern cd "pattern";
  version_pattern ← _get_pattern cd "version-pattern";
  url_pattern ← _get_pattern cd "url-pattern";
  let url_template := cd !! "url-template" in
  let sort_matches := default (VBool true) (cd !! "sort-matches") in
  _ ← py_assert
        (bool_decide (is_Some combo_pattern)
         || (bool_decide (is_Some version_pattern)
             && (bool_decide (is_Some url_pattern) || opt_truthy url_template)));
  Ok (mkLocals url combo_pattern version_pattern url_pattern url_template
        sort_matches).

(** Lines 73 to 109 of [check]: the fetch of the page, the extraction and
    the hand-over to [_update_version]. *)
Definition check_body (l : check_locals) : M unit :=
  html ← fetch_text (url l);
  latest ← lift (check_extraction html (combo_pattern l) (version_pattern l)
                   (url_pattern l) (url_template l) (sort_matches l));
  let latest_version := fst latest in
  let latest_url := snd latest in
  if negb (opt_str_truthy latest_version) || negb (opt_str_truthy latest_url)
  then mret tt
  else
    match latest_url with
    | Some u =>
        abs_url ← lift (urljoin (url l) u);
        _update_version latest_version (Some abs_url) false
    | None => mret tt
    end.

(** [HTMLChecker.check] *)
Definition check : M unit :=
  external_data ← get_data;
  l ← lift (check_config external_data);
  check_body l.

End Checker.

(** * Notions used by the statements *)

(** Two components of the same Python type. *)
Definition same_kind (x y : component) : bool :=
  match x, y with
  | CInt _, CInt _ | CStr _, CStr _ => true
  | _, _ => false
  end.

(** Two component lists are comparable when the first position where they
    differ, if there is one in both, holds two components of the same
    type. *)
Fixpoint comparable (xs ys : list component) : bool :=
  match xs, ys with
  | x :: xs', y :: ys' =>
      if component_eqb x y then comparable xs' ys' else same_kind x y
  | _, _ => true
  end.

(** Every two keys of a list of matches can be ordered. *)
Definition pairwise_comparable {A} (key : A -> LooseVersion) (l : list A) : bool :=
  forallb (fun x => forallb (fun y => is_ok (LooseVersion_gt (key x) (key y))) l) l.

(** [below key m x]: the key of [x] is strictly less than the key of [m];
    [not_above key m x]: the key of [x] is not greater than the key of [m]. *)
Definition below {A} (key : A -> LooseVersion) (m x : A) : Prop :=
  LooseVersion_lt (key x) (key m) = Ok true.

Definition not_above {A} (key : A -> LooseVersion) (m x : A) : Prop :=
  LooseVersion_gt (key x) (key m) = Ok false.

(** The token is a placeholder for [name]. *)
Definition names (name : string) (t : token) : bool :=
  match t with
  | TNamed n | TBraced n => String.eqb n name
  | _ => false
  end.

(** The template has a placeholder for [name]. *)
Definition references (template name : string) : bool :=
  existsb (names name) (lex MText template).

(** The template has no ill-formed delimiter. *)
Definition well_formed (template : string) : bool :=
  forallb (fun t => match t with TInvalid => false | _ => true end)
    (lex MText template).

(** The mutations of the object in a trace. *)
Definition mutations (t : list event) : list event := List.filter is_mutation t.

(** The object after [external_data.state = st]. *)
Definition with_state (st : State) (d : ExternalData) : ExternalData :=
  mkExternalData (filename d) (checker_data d) st (new_version d).

(** The store after the fetch of the page. *)
Definition after_get (u : value) (s : store) : store :=
  mkStore (data s) (trace s ++ [EvGet u]).

(** ** A table-driven instance of the collaborators

    The examples run the checker on this instance: a pattern is given by
    the matches it finds, the page and the metadata of a URL by tables. *)
Record TablePattern := mkTablePattern {
  tp_groups : nat;
  tp_findall1 : string -> list string;
  tp_findall2 : string -> list (string * string)
}.

(** The words of the page that start with [v], without the [v]. *)
Definition v_words (html : string) : list string :=
  omap (fun w => match w with
                 | String "v"%char rest => Some rest
                 | _ => None
                 end) (String.words html).

(** [s] cut at its first [@]. *)
Fixpoint cut_at_sign (s : string) : option (string * string) :=
  match s with
  | EmptyString => None
  | String c s' =>
      if Ascii.eqb c "@"%char then Some (EmptyString, s')
      else match cut_at_sign s' with
           | Some (a, b) => Some (String c a, b)
           | None => None
           end
  end.

Definition at_pairs (html : string) : list (string * string) :=
  omap cut_at_sign (String.words html).

Definition pattern_v : TablePattern := mkTablePattern 1 v_words (fun _ => []).
Definition pattern_pair : TablePattern := mkTablePattern 2 (fun _ => []) at_pairs.
Definition pattern_word : TablePattern := mkTablePattern 1 String.words (fun _ => []).
Definition pattern_v_ungrouped : TablePattern :=
  mkTablePattern 0 v_words (fun _ => []).

Definition table_compile (v : value) : result TablePattern :=
  match v with
  | VStr src =>
      if String.eqb src "v(\S+)" then Ok pattern_v
      else if String.eqb src "(\S+)@(\S+)" then Ok pattern_pair
      else if String.eqb src "(\S+)" then Ok pattern_word
      else if String.eqb src "v\S+" then Ok pattern_v_ungrouped
      else Raise (Foreign [OtherClass "re.error"])
  | VBool _ => Raise TypeError
  end.

Definition table_collaborators (get_text : value -> result string)
  (info : string -> bool -> result ExternalFile) : Collaborators := {|
  Pattern := TablePattern;
  re_compile := table_compile;
  groups := tp_groups;
  findall1 := tp_findall1;
  findall2 := tp_findall2;
  should_check := fun d =>
    bool_decide (checker_data d !! "type" = Some (VStr "html"));
  session_get_text := get_text;
  urljoin := fun base u =>
    match base with
    | VStr b => Ok (b +:+ u)
    | VBool _ => Raise TypeError
    end;
  get_extra_data_info_from_url := info;
  set_new_version := fun f d =>
    mkExternalData (filename d) (checker_data d) (state d) (Some f)
|}.

Definition no_page : value -> result string :=
  fun _ => Raise (Foreign [ClientError]).

Definition no_info : string -> bool -> result ExternalFile :=
  fun _ _ => Raise (Foreign [ClientError]).

Definition table_env : Collaborators := table_collaborators no_page no_info.

(** A server that drops the connection: the exception is an instance of
    [ServerDisconnectedError] and of its base classes. *)
Definition server_reset : exn :=
  Foreign [ServerDisconnectedError; ServerConnectionError; ClientError].

(** The metadata call guesses the version ["0.0"] for every URL. *)
Definition info_found : string -> bool -> result ExternalFile :=
  fun u _ => Ok (mkExternalFile u "sha256:0a1b" 1024 (Some "0.0")).

Definition info_reset : string -> bool -> result ExternalFile :=
  fun _ _ => Raise server_reset.

Definition page (text : string) : value -> result string :=
  fun _ => Ok text.

Definition example_data (cd : list (string * value)) : ExternalData :=
  mkExternalData "app.tar.gz" (list_to_map cd) OK None.

Definition example_store (cd : list (string * value)) : store :=
  mkStore (example_data cd) [].

(** Three configurations: a version pattern with a URL template, a combo
    pattern that has one group only, and a combo pattern together with a
    version pattern and a URL template. *)
Definition cd_version_template : list (string * value) :=
  [("type", VStr "html"); ("url", VStr "https://example.com/downloads/");
   ("version-pattern", VStr "v(\S+)");
   ("url-template", VStr "https://example.com/d/app-$version.tar.gz")].

Definition cd_combo_one_group : list (string * value) :=
  [("type", VStr "html"); ("url", VStr "https://example.com/downloads/");
   ("pattern", VStr "v(\S+)")].

Definition cd_combo_and_version : list (string * value) :=
  [("type", VStr "html"); ("url", VStr "https://example.com/downloads/");
   ("pattern", VStr "(\S+)@(\S+)");
   ("version-pattern", VStr "v(\S+)");
   ("url-template", VStr "https://example.com/d/app-$version.tar.gz")].

(** The collaborators of the examples. *)
Definition env_miss : Collaborators :=
  table_collaborators (page "nothing here") info_found.

Definition env_versions : Collaborators :=
  table_collaborators (page "v1.0 v2.0") info_found.


Definition env_pairs : Collaborators :=
  table_collaborators (page "/d/app-2.1.tar.gz@2.1 v9.9") info_found.

Definition env_reset : Collaborators :=
  table_collaborators (page "") info_reset.

Definition env_found : Collaborators :=
  table_collaborators (page "") info_found.

(** ** Notions used by the further properties *)

(** A character that is a digit or a dot, and a version string made of
    such characters only. *)
Definition digit_or_dot (c : ascii) : bool :=
  match classify c with
  | Digit | Dot => true
  | _ => false
  end.

Fixpoint digits_and_dots (s : string) : bool :=
  match s with
  | EmptyString => true
  | String c s' => digit_or_dot c && digits_and_dots s'
  end.

(** A text that [int] accepts as far as its length goes. *)
Definition within_int_limit (s : string) : bool :=
  (N.of_nat (String.length s) <=? int_max_str_digits)%N.

Definition numeric_version (s : string) : bool :=
  str_truthy s && digits_and_dots s && within_int_limit s.

(** A string made of digits only. *)
Fixpoint all_digits (s : string) : bool :=
  match s with
  | EmptyString => true
  | String c s' =>
      match classify c with Digit => all_digits s' | _ => false end
  end.

(** A component that is a number. *)
Definition is_int (x : component) : bool :=
  match x with
  | CInt _ => true
  | CStr _ => false
  end.

(** A text without the delimiter of templates. *)
Fixpoint dollar_free (s : string) : bool :=
  match s with
  | EmptyString => true
  | String c s' => negb (is_dollar c) && dollar_free s'
  end.

(** The events that one run of [check] can add to the trace, for the page
    URL [u]: nothing, the fetch of the page, then the metadata call without
    redirects, then one mutation. *)
Definition check_trace_shape (u : value) (new : list event) : Prop :=
  new = []
  \/ new = [EvGet u]
  \/ (exists a, new = [EvGet u; EvExtraDataInfo a false])
  \/ (exists a, new = [EvGet u; EvExtraDataInfo a false; EvSetState BROKEN])
  \/ (exists a f, new = [EvGet u; EvExtraDataInfo a false; EvSetNewVersion f]).

Definition env_pairs_reset : Collaborators :=
  table_collaborators (page "/d/app-2.1.tar.gz@2.1 v9.9") info_reset.

(** Two more configurations: one without the key [url], and one whose
    combo pattern compiles while its version pattern, which the combo
    pattern makes useless, does not. *)
Definition cd_no_url : list (string * value) :=
  [("type", VStr "html"); ("pattern", VStr "(\S+)@(\S+)")].

Definition cd_bad_version_pattern : list (string * value) :=
  [("type", VStr "html"); ("url", VStr "https://example.com/downloads/");
   ("pattern", VStr "(\S+)@(\S+)");
   ("version-pattern", VStr "v(\S+")].

(** A timeout of the whole request: the HTTP client raises it as
    [asyncio.TimeoutError], which is none of its own exception classes. *)
Definition asyncio_timeout : exn :=
  Foreign [OtherClass "asyncio.TimeoutError"; OtherClass "Exception"].

Definition info_timeout : string -> bool -> result ExternalFile :=
  fun _ _ => Raise asyncio_timeout.

Definition env_timeout : Collaborators :=
  table_collaborators (page "") info_timeout.



(** * Properties *)

(** ** The order of components and of component lists *)

Lemma component_eqb_eq x y : component_eqb x y = true <-> x = y.
Proof.
  destruct x, y; simpl; try (split; [discriminate | congruence]).
  - rewrite N.eqb_eq. split; congruence.
  - rewrite String.eqb_eq. split; congruence.
Qed.

Lemma component_eqb_refl x : component_eqb x x = true.
Proof. by apply component_eqb_eq. Qed.

Lemma component_eqb_sym x y : component_eqb x y = component_eqb y x.
Proof.
  destruct (component_eqb x y) eqn:E, (component_eqb y x) eqn:F; try done.
  - apply component_eqb_eq in E. subst. by rewrite component_eqb_refl in F.
  - apply component_eqb_eq in F. subst. by rewrite component_eqb_refl in E.
Qed.

Lemma list_eqb_eq xs ys : list_eqb xs ys = true <-> xs = ys.
Proof.
  revert ys. induction xs as [|x xs IH]; intros [|y ys]; simpl; try done.
  rewrite andb_true_iff, component_eqb_eq, IH. split.
  - by intros [-> ->].
  - by intros [= -> ->].
Qed.

Lemma string_ltb_lt s t : String.ltb s t = true <-> String.compare s t = Lt.
Proof. unfold String.ltb. destruct (String.compare s t); split; congruence. Qed.

Lemma string_compare_refl s : String.compare s s = Eq.
Proof.
  induction s as [|a s IH]; simpl; [done|].
  unfold Ascii.compare. by rewrite N.compare_refl.
Qed.

Lemma string_ltb_irrefl s : String.ltb s s = false.
Proof. unfold String.ltb. by rewrite string_compare_refl. Qed.

Lemma string_ltb_leb s t :
  String.ltb s t = true <-> String.leb s t = true /\ s <> t.
Proof.
  unfold String.ltb, String.leb.
  destruct (String.compare s t) eqn:E; split; try done.
  - apply String.compare_eq_iff in E. by intros [_ ?].
  - intros _. split; [done|]. intros ->. by rewrite string_compare_refl in E.
  - by intros [? _].
Qed.

Lemma string_ltb_trans s t u :
  String.ltb s t = true -> String.ltb t u = true -> String.ltb s u = true.
Proof.
  rewrite !string_ltb_leb. intros [Hst Hne] [Htu Hne'].
  assert (String.le s u) as Hsu.
  { transitivity t; unfold String.le; by apply Is_true_true. }
  split; [by apply Is_true_true in Hsu|].
  intros ->. apply Hne. by apply String.leb_antisym.
Qed.

Lemma string_ltb_total s t :
  s <> t -> String.ltb s t = false -> String.ltb t s = true.
Proof.
  unfold String.ltb. rewrite (String.compare_antisym t s).
  destruct (String.compare s t) eqn:E; simpl; try done.
  apply String.compare_eq_iff in E. done.
Qed.

Lemma string_ltb_asym s t : String.ltb s t = true -> String.ltb t s = false.
Proof.
  unfold String.ltb. rewrite (String.compare_antisym t s).
  by destruct (String.compare s t).
Qed.

Lemma component_lt_defined x y : is_ok (component_lt x y) = same_kind x y.
Proof. by destruct x, y. Qed.

Lemma component_gt_lt x y : component_gt x y = component_lt y x.
Proof. by destruct x, y. Qed.

Lemma component_lt_asym x y :
  component_lt x y = Ok true -> component_lt y x = Ok false.
Proof.
  destruct x as [a|s], y as [b|t]; simpl; try done; intros [= Hlt]; f_equal.
  - apply N.ltb_lt in Hlt. apply N.ltb_ge. lia.
  - by apply string_ltb_asym.
Qed.

Lemma component_lt_total x y :
  component_eqb x y = false -> component_lt x y = Ok false ->
  component_lt y x = Ok true.
Proof.
  destruct x as [a|s], y as [b|t]; simpl; try done; intros Hne [= Hlt]; f_equal.
  - apply N.eqb_neq in Hne. apply N.ltb_ge in Hlt. apply N.ltb_lt. lia.
  - apply String.eqb_neq in Hne. by apply string_ltb_total.
Qed.

Lemma component_lt_trans x y z :
  component_lt x y = Ok true -> component_lt y z = Ok true ->
  component_lt x z = Ok true.
Proof.
  destruct x as [a|s], y as [b|t], z as [c|u]; simpl; try done;
    intros [= H1] [= H2]; f_equal.
  - apply N.ltb_lt in H1, H2. apply N.ltb_lt. lia.
  - by apply string_ltb_trans with t.
Qed.

Lemma component_lt_irrefl x y :
  component_lt x y = Ok true -> component_eqb x y = false.
Proof.
  destruct (component_eqb x y) eqn:E; [|done].
  apply component_eqb_eq in E as ->.
  destruct y as [b|t]; simpl; intros [= Hlt].
  - apply N.ltb_lt in Hlt. lia.
  - by rewrite string_ltb_irrefl in Hlt.
Qed.

Lemma list_lt_defined xs ys : is_ok (list_lt xs ys) = comparable xs ys.
Proof.
  revert ys. induction xs as [|x xs IH]; intros [|y ys]; simpl; try done.
  destruct (component_eqb x y); [apply IH | apply component_lt_defined].
Qed.

Lemma list_gt_lt xs ys : list_gt xs ys = list_lt ys xs.
Proof.
  revert ys. induction xs as [|x xs IH]; intros [|y ys]; simpl; try done.
  rewrite (component_eqb_sym y x).
  destruct (component_eqb x y); [apply IH | apply component_gt_lt].
Qed.

Lemma list_lt_irrefl xs : list_lt xs xs = Ok false.
Proof.
  induction xs as [|x xs IH]; simpl; [done|]. by rewrite component_eqb_refl.
Qed.

Lemma list_lt_neq xs ys : list_lt xs ys = Ok true -> xs <> ys.
Proof. intros Hlt ->. by rewrite list_lt_irrefl in Hlt. Qed.

Lemma list_lt_asym xs ys : list_lt xs ys = Ok true -> list_lt ys xs = Ok false.
Proof.
  revert ys. induction xs as [|x xs IH]; intros [|y ys]; simpl; try done.
  rewrite (component_eqb_sym y x).
  destruct (component_eqb x y); [apply IH | apply component_lt_asym].
Qed.

Lemma list_lt_total xs ys :
  xs <> ys -> list_lt xs ys = Ok false -> list_lt ys xs = Ok true.
Proof.
  revert ys. induction xs as [|x xs IH]; intros [|y ys]; simpl; try done.
  rewrite (component_eqb_sym y x).
  destruct (component_eqb x y) eqn:E.
  - apply component_eqb_eq in E as ->. intros Hne. apply IH. congruence.
  - intros _. by apply component_lt_total.
Qed.

Lemma list_lt_trans xs ys zs :
  list_lt xs ys = Ok true -> list_lt ys zs = Ok true -> list_lt xs zs = Ok true.
Proof.
  revert ys zs.
  induction xs as [|x xs IH]; intros [|y ys] [|z zs]; simpl; try done.
  destruct (component_eqb x y) eqn:Exy.
  - apply component_eqb_eq in Exy as ->.
    destruct (component_eqb y z) eqn:Eyz; [apply IH | done].
  - destruct (component_eqb y z) eqn:Eyz.
    + apply component_eqb_eq in Eyz as ->. by rewrite Exy.
    + intros Hxy Hyz.
      pose proof (component_lt_trans _ _ _ Hxy Hyz) as Hxz.
      by rewrite (component_lt_irrefl _ _ Hxz).
Qed.

Lemma list_lt_prefix xs y ys : list_lt xs (xs ++ y :: ys) = Ok true.
Proof.
  induction xs as [|x xs IH]; simpl; [done|]. by rewrite component_eqb_refl.
Qed.

Lemma list_eqb_prefix xs y ys : list_eqb xs (xs ++ y :: ys) = false.
Proof.
  apply not_true_is_false. rewrite list_eqb_eq. intros Heq.
  apply (f_equal length) in Heq. rewrite length_app in Heq. simpl in Heq. lia.
Qed.

Lemma list_lt_raise xs ys e :
  list_lt xs ys = Raise e -> e = TypeError /\ list_lt ys xs = Raise TypeError.
Proof.
  revert ys. induction xs as [|x xs IH]; intros [|y ys]; simpl; try done.
  rewrite (component_eqb_sym y x).
  destruct (component_eqb x y); [apply IH|].
  destruct x, y; simpl; try done; by intros [= <-].
Qed.

(** ** The comparison of [LooseVersion] objects *)

Lemma LooseVersion_init_version s :
  version (LooseVersion_init s) = if str_truthy s then Some (parse s) else None.
Proof. by destruct s. Qed.

Lemma LooseVersion_cmp_lists v w a b :
  version v = Some a -> version w = Some b ->
  LooseVersion_cmp v w =
    if list_eqb a b then Ok (Some 0%Z)
    else match list_lt a b with
         | Ok true => Ok (Some (-1)%Z)
         | Ok false => Ok (Some 1%Z)
         | Raise e => Raise e
         end.
Proof.
  intros Hv Hw. unfold LooseVersion_cmp, get_version. rewrite Hv, Hw. simpl.
  destruct (list_eqb a b) eqn:Heq; [done|].
  destruct (list_lt a b) as [[]|e] eqn:Hlt; simpl; try done.
  rewrite list_gt_lt, (list_lt_total a b); [done| |done].
  intros ->. by rewrite (proj2 (list_eqb_eq b b)) in Heq.
Qed.

Lemma LooseVersion_cmp_no_version v w :
  version v = None \/ version w = None ->
  LooseVersion_cmp v w = Raise AttributeError.
Proof.
  unfold LooseVersion_cmp, get_version.
  intros [Hv|Hw]; [by rewrite Hv|]. rewrite Hw. by destruct (version v).
Qed.

Lemma LooseVersion_lt_lists v w a b :
  version v = Some a -> version w = Some b ->
  LooseVersion_lt v w = list_lt a b.
Proof.
  intros Hv Hw. unfold LooseVersion_lt.
  rewrite (LooseVersion_cmp_lists v w a b Hv Hw).
  destruct (list_eqb a b) eqn:Heq.
  - apply list_eqb_eq in Heq as ->. by rewrite list_lt_irrefl.
  - by destruct (list_lt a b) as [[]|e].
Qed.

Lemma LooseVersion_gt_lists v w a b :
  version v = Some a -> version w = Some b ->
  LooseVersion_gt v w = list_lt b a.
Proof.
  intros Hv Hw. unfold LooseVersion_gt.
  rewrite (LooseVersion_cmp_lists v w a b Hv Hw).
  destruct (list_eqb a b) eqn:Heq.
  - apply list_eqb_eq in Heq as ->. by rewrite list_lt_irrefl.
  - destruct (list_lt a b) as [[]|e] eqn:Hlt; simpl.
    + by rewrite (list_lt_asym a b).
    + rewrite (list_lt_total a b); [done| |done].
      intros ->. by rewrite (proj2 (list_eqb_eq b b)) in Heq.
    + by destruct (list_lt_raise _ _ _ Hlt) as [-> ->].
Qed.

Lemma LooseVersion_eq_lists v w a b :
  version v = Some a -> version w = Some b -> is_ok (list_lt a b) = true ->
  LooseVersion_eq v w = Ok (list_eqb a b).
Proof.
  intros Hv Hw Hok. unfold LooseVersion_eq.
  rewrite (LooseVersion_cmp_lists v w a b Hv Hw).
  destruct (list_eqb a b); [done|]. by destruct (list_lt a b) as [[]|e].
Qed.

Lemma version_lt_parse a b :
  str_truthy a = true -> str_truthy b = true ->
  version_lt a b = list_lt (parse a) (parse b).
Proof.
  intros Ha Hb. apply LooseVersion_lt_lists;
    rewrite LooseVersion_init_version; by rewrite ?Ha, ?Hb.
Qed.

Lemma version_lt_empty a b :
  str_truthy a && str_truthy b = false -> version_lt a b = Raise AttributeError.
Proof.
  intros H. unfold version_lt, LooseVersion_lt.
  rewrite LooseVersion_cmp_no_version; [done|].
  rewrite !LooseVersion_init_version.
  destruct (str_truthy a), (str_truthy b); auto; done.
Qed.

(** C4, as the code has it: a version is not padded.  A list of components
    that is a proper prefix of another one is strictly less than it and not
    equal to it; so ["1.2" < "1.2.0"] is true and the two are not equal,
    ["1.2" < "1.2.1"] is true, and ["1.9" < "1.10"] is true, a run of digits
    being compared as a number. *)
Theorem version_order_prefix_is_less :
  (forall xs y ys,
      list_lt xs (xs ++ y :: ys) = Ok true /\ list_eqb xs (xs ++ y :: ys) = false)
  /\ (forall n m, component_lt (CInt n) (CInt m) = Ok (n <? m)%N)
  /\ parse "1.2.0" = (parse "1.2" ++ [CInt 0%N])%list
  /\ version_lt "1.2" "1.2.0" = Ok true
  /\ version_eq "1.2" "1.2.0" = Ok false
  /\ version_lt "1.2" "1.2.1" = Ok true
  /\ version_lt "1.9" "1.10" = Ok true.
Proof.
  split; [|repeat split; reflexivity].
  intros xs y ys. split; [apply list_lt_prefix | apply list_eqb_prefix].
Qed.

(** C4 fails as stated: ["1.2" < "1.2.0"] is true, and the two versions do
    not compare equal. *)
Lemma version_order_no_padding :
  version_lt "1.2" "1.2.0" <> Ok false /\ version_eq "1.2" "1.2.0" <> Ok true.
Proof. split; vm_compute; discriminate. Qed.

(** C5, as the code has it: comparing two version strings raises
    [AttributeError] when one of them is empty, and [TypeError] when both
    are non-empty and their component lists first differ at a number
    against a text; in every other case the comparison yields a result.
    Where it is defined, the order is strict and total on the component
    lists (exactly one of less, equal, greater holds), it is transitive, and
    [>] is [<] with the sides exchanged. *)
Theorem version_order_partial (a b c : string) :
  (str_truthy a && str_truthy b = false ->
     version_lt a b = Raise AttributeError)
  /\ (str_truthy a && str_truthy b = true ->
      comparable (parse a) (parse b) = false ->
      version_lt a b = Raise TypeError)
  /\ (str_truthy a && str_truthy b = true ->
      comparable (parse a) (parse b) = true ->
      (version_lt a b = Ok true /\ version_eq a b = Ok false
         /\ version_lt b a = Ok false)
      \/ (version_lt a b = Ok false /\ version_eq a b = Ok true
            /\ version_lt b a = Ok false)
      \/ (version_lt a b = Ok false /\ version_eq a b = Ok false
            /\ version_lt b a = Ok true))
  /\ (version_lt a b = Ok true -> version_lt b c = Ok true ->
      version_lt a c = Ok true)
  /\ version_gt a b = version_lt b a.
Proof.
  split; [apply version_lt_empty|].
  split; [|split; [|split]].
  - intros [Ha Hb]%andb_true_iff Hc. rewrite version_lt_parse by done.
    pose proof (list_lt_defined (parse a) (parse b)) as Hd. rewrite Hc in Hd.
    destruct (list_lt (parse a) (parse b)) as [r|e] eqn:Hlt; [done|].
    by destruct (list_lt_raise _ _ _ Hlt) as [-> _].
  - intros [Ha Hb]%andb_true_iff Hc.
    rewrite !version_lt_parse by done.
    pose proof (list_lt_defined (parse a) (parse b)) as Hd. rewrite Hc in Hd.
    unfold version_eq.
    rewrite (LooseVersion_eq_lists _ _ (parse a) (parse b));
      [| rewrite LooseVersion_init_version; by rewrite ?Ha, ?Hb ..| done].
    destruct (list_lt (parse a) (parse b)) as [[]|e] eqn:Hlt; [| |done].
    + left. split; [done|]. split; [|by apply list_lt_asym].
      f_equal. apply not_true_is_false. rewrite list_eqb_eq.
      by apply list_lt_neq.
    + right. destruct (list_eqb (parse a) (parse b)) eqn:Heq.
      * left. apply list_eqb_eq in Heq. rewrite <- Heq.
        by rewrite list_lt_irrefl.
      * right. split; [done|]. split; [done|]. apply list_lt_total; [|done].
        intros Heq'. apply list_eqb_eq in Heq'. congruence.
  - intros Hab Hbc.
    destruct (str_truthy a && str_truthy b) eqn:E1;
      [|by rewrite version_lt_empty in Hab].
    destruct (str_truthy b && str_truthy c) eqn:E2;
      [|by rewrite version_lt_empty in Hbc].
    apply andb_true_iff in E1 as [Ha Hb]. apply andb_true_iff in E2 as [_ Hc].
    rewrite version_lt_parse in * by done. by eapply list_lt_trans.
  - unfold version_gt, version_lt.
    destruct (str_truthy a) eqn:Ha, (str_truthy b) eqn:Hb.
    + rewrite (LooseVersion_gt_lists _ _ (parse a) (parse b)),
        (LooseVersion_lt_lists _ _ (parse b) (parse a)); try done;
        rewrite LooseVersion_init_version; by rewrite ?Ha, ?Hb.
    + unfold LooseVersion_gt, LooseVersion_lt.
      rewrite !LooseVersion_cmp_no_version; try done;
        rewrite !LooseVersion_init_version, ?Ha, ?Hb; auto.
    + unfold LooseVersion_gt, LooseVersion_lt.
      rewrite !LooseVersion_cmp_no_version; try done;
        rewrite !LooseVersion_init_version, ?Ha, ?Hb; auto.
    + unfold LooseVersion_gt, LooseVersion_lt.
      rewrite !LooseVersion_cmp_no_version; try done;
        rewrite !LooseVersion_init_version, ?Ha, ?Hb; auto.
Qed.

Lemma version_order_partial_witness :
  version_lt "1.2" "1.10" = Ok true /\ version_lt "1.10" "2.0rc1" = Ok true
  /\ version_lt "1.2" "2.0rc1" = Ok true
  /\ version_lt "" "1.2" = Raise AttributeError
  /\ version_lt "1.a" "1.2" = Raise TypeError.
Proof.
  split; [reflexivity|]. split; [reflexivity|]. split; [|split].
  - apply (version_order_partial "1.2" "1.10" "2.0rc1"); reflexivity.
  - apply (version_order_partial "" "1.2" ""); reflexivity.
  - apply (version_order_partial "1.a" "1.2" ""); reflexivity.
Defined.

(** C5 fails as stated: a number against a text raises [TypeError], and the
    empty string raises [AttributeError] instead of being the least
    version. *)
Lemma version_order_raises :
  version_lt "1.a" "1.2" = Raise TypeError
  /\ version_gt "1.2" "1.a" = Raise TypeError
  /\ version_lt "" "1.2" = Raise AttributeError
  /\ version_gt "1.2" "" = Raise AttributeError.
Proof. repeat split; reflexivity. Qed.

(** ** The scan of [max] *)

Lemma LooseVersion_gt_inv v w r :
  LooseVersion_gt v w = Ok r ->
  exists a b, version v = Some a /\ version w = Some b /\ list_lt b a = Ok r.
Proof.
  intros Hgt. destruct (version v) as [a|] eqn:Hv; [destruct (version w) as [b|] eqn:Hw|].
  - exists a, b. by rewrite (LooseVersion_gt_lists v w a b) in Hgt.
  - unfold LooseVersion_gt in Hgt.
    rewrite LooseVersion_cmp_no_version in Hgt by auto. done.
  - unfold LooseVersion_gt in Hgt.
    rewrite LooseVersion_cmp_no_version in Hgt by auto. done.
Qed.

Lemma LooseVersion_gt_lt v w : LooseVersion_gt v w = LooseVersion_lt w v.
Proof.
  destruct (version v) as [a|] eqn:Hv; [destruct (version w) as [b|] eqn:Hw|].
  - by rewrite (LooseVersion_gt_lists v w a b), (LooseVersion_lt_lists w v b a).
  - unfold LooseVersion_gt, LooseVersion_lt.
    by rewrite !LooseVersion_cmp_no_version by auto.
  - unfold LooseVersion_gt, LooseVersion_lt.
    by rewrite !LooseVersion_cmp_no_version by auto.
Qed.

(** Strictly less, then strictly less: strictly less. *)
Lemma lt_lt_trans u v w :
  LooseVersion_lt u v = Ok true -> LooseVersion_lt v w = Ok true ->
  LooseVersion_lt u w = Ok true.
Proof.
  rewrite <- !LooseVersion_gt_lt.
  intros (b & a & Hb & Ha & Hab)%LooseVersion_gt_inv
         (c & b' & Hc & Hb' & Hbc)%LooseVersion_gt_inv.
  rewrite Hb in Hb'. injection Hb' as <-.
  rewrite (LooseVersion_gt_lists w u c a) by done. by eapply list_lt_trans.
Qed.

(** Not greater, then strictly less: strictly less. *)
Lemma le_lt_trans u v w :
  LooseVersion_gt u v = Ok false -> LooseVersion_lt v w = Ok true ->
  LooseVersion_lt u w = Ok true.
Proof.
  rewrite <- !LooseVersion_gt_lt.
  intros (a & b & Ha & Hb & Hab)%LooseVersion_gt_inv
         (c & b' & Hc & Hb' & Hbc)%LooseVersion_gt_inv.
  rewrite Hb in Hb'. injection Hb' as <-.
  rewrite (LooseVersion_gt_lists w u c a) by done.
  destruct (decide (a = b)) as [->|Hne]; [done|].
  eapply list_lt_trans; [|exact Hbc]. apply list_lt_total; [congruence|done].
Qed.

Lemma lt_not_gt u v :
  LooseVersion_lt u v = Ok true -> LooseVersion_gt u v = Ok false.
Proof.
  rewrite <- LooseVersion_gt_lt.
  intros (b & a & Hb & Ha & Hab)%LooseVersion_gt_inv.
  rewrite (LooseVersion_gt_lists u v a b) by done. by apply list_lt_asym.
Qed.

Section MaxScan.
Context {A : Type} (key : A -> LooseVersion).

(** When the scan returns, it returns the first item whose key no other
    key exceeds: the items before it are strictly less and the items
    after it are not greater. *)
Lemma max_scan_first_maximum rest : forall pre best mid r,
  Forall (below key best) pre -> Forall (not_above key best) mid ->
  max_scan key best (key best) rest = Ok r ->
  exists pre' post',
    (pre ++ best :: mid ++ rest = pre' ++ r :: post')%list
    /\ Forall (below key r) pre' /\ Forall (not_above key r) post'.
Proof.
  induction rest as [|item rest IH]; intros pre best mid r Hpre Hmid; simpl.
  - intros [= <-]. exists pre, mid. by rewrite app_nil_r.
  - destruct (LooseVersion_gt (key item) (key best)) as [[]|e] eqn:Hgt;
      simpl; [| |done].
    + intros Hscan.
      assert (below key item best) as Hbest
        by (unfold below; by rewrite <- LooseVersion_gt_lt).
      destruct (IH (pre ++ best :: mid)%list item [] r) as (pre' & post' & Heq & ?);
        [| constructor | exact Hscan |].
      * apply Forall_app. split; [|constructor].
        -- eapply Forall_impl; [exact Hpre|]. intros x Hx.
           by eapply lt_lt_trans.
        -- done.
        -- eapply Forall_impl; [exact Hmid|]. intros x Hx.
           by eapply le_lt_trans.
      * exists pre', post'. split; [|done]. rewrite <- Heq.
        by rewrite <- !app_assoc.
    + intros Hscan.
      destruct (IH pre best (mid ++ [item])%list r) as (pre' & post' & Heq & ?);
        [done | | exact Hscan |].
      * apply Forall_app. split; [done|]. by constructor.
      * exists pre', post'. split; [|done]. rewrite <- Heq.
        by rewrite <- !app_assoc.
Qed.

(** The scan returns when every comparison it can make is defined. *)
Lemma max_scan_returns (l : list A) rest : forall best,
  (forall x y, x ∈ l -> y ∈ l -> is_ok (LooseVersion_gt (key x) (key y)) = true) ->
  best ∈ l -> rest ⊆ l ->
  exists r, max_scan key best (key best) rest = Ok r.
Proof.
  induction rest as [|item rest IH]; intros best Hall Hbest Hrest; simpl.
  - by exists best.
  - assert (item ∈ l) as Hitem by (apply Hrest; by left).
    assert (rest ⊆ l) as Hrest' by (intros x Hx; apply Hrest; by right).
    pose proof (Hall item best Hitem Hbest) as Hok.
    destruct (LooseVersion_gt (key item) (key best)) as [[]|e]; simpl;
      [by apply IH | by apply IH | done].
Qed.

Lemma pairwise_comparable_spec (l : list A) :
  pairwise_comparable key l = true ->
  forall x y, x ∈ l -> y ∈ l -> is_ok (LooseVersion_gt (key x) (key y)) = true.
Proof.
  unfold pairwise_comparable. rewrite forallb_forall.
  intros Hall x y Hx%list_elem_of_In Hy%list_elem_of_In.
  specialize (Hall x Hx). rewrite forallb_forall in Hall. by apply Hall.
Qed.

Lemma py_max_first_maximum (l : list A) r :
  py_max key l = Ok r ->
  exists pre post,
    l = (pre ++ r :: post)%list /\ Forall (below key r) pre /\ Forall (not_above key r) post.
Proof.
  destruct l as [|item rest]; simpl; [done|]. intros Hscan.
  destruct (max_scan_first_maximum rest [] item [] r) as (pre & post & Heq & ?);
    [constructor | constructor | done |].
  by exists pre, post.
Qed.

Lemma py_max_returns (l : list A) :
  l <> [] -> pairwise_comparable key l = true -> exists r, py_max key l = Ok r.
Proof.
  intros Hne Hall. destruct l as [|item rest]; [done|]. simpl.
  apply (max_scan_returns (item :: rest)).
  - by apply pairwise_comparable_spec.
  - by left.
  - intros x Hx. by right.
Qed.
End MaxScan.

(** ** [_get_latest] *)



(** The example of the spec: with the sort key the latest version is
    selected, without it the first match. *)
Example get_latest_example :
  _get_latest (env := table_env) findall1 "v1.0 v2.0 v1.5" pattern_v
    (Some LooseVersion_init) = Ok (Some "2.0")
  /\ _get_latest (env := table_env) findall1 "v1.0 v2.0 v1.5" pattern_v None
     = Ok (Some "1.0")
  /\ _get_latest (env := table_env) findall1 "v2.0 v1.0 v2.0" pattern_v
       (Some LooseVersion_init) = Ok (Some "2.0")
  /\ _get_latest (env := table_env) findall1 "none" pattern_v
       (Some LooseVersion_init) = Ok None.
Proof. repeat split; reflexivity. Qed.


(** ** [_substitute_placeholders] *)

Lemma pretty_N_go_nonempty (x : N) s : s <> "" -> pretty_N_go x s <> "".
Proof.
  revert s. induction (N.lt_wf_0 x) as [x _ IH]; intros s Hs.
  destruct (decide (x = 0%N)) as [->|Hx].
  - by rewrite pretty_N_go_0.
  - rewrite pretty_N_go_step by lia. apply IH; [|done].
    apply N.div_lt; lia.
Qed.

Lemma pretty_nat_nonempty (i : nat) : pretty i <> "".
Proof.
  unfold pretty, pretty_nat, pretty, pretty_N. case_decide; [done|].
  rewrite pretty_N_go_step by lia. by apply pretty_N_go_nonempty.
Qed.

Lemma version_key_inj (i j : nat) :
  "version" +:+ pretty i = "version" +:+ pretty j -> i = j.
Proof. intros Heq. by apply (inj pretty), (inj (String.app "version")). Qed.

Lemma version_key_not_version (i : nat) : "version" +:+ pretty i <> "version".
Proof.
  intros Heq. apply (pretty_nat_nonempty i).
  by apply (inj (String.app "version")).
Qed.

(** The keys written by the loop from index [i] on, over [n] components. *)
Lemma fill_vars_lookup_index (l : list component) : forall i m (j : nat),
  fill_vars i l m !! ("version" +:+ pretty j) =
    if decide (i <= j < i + length l) then l !! (j - i)
    else m !! ("version" +:+ pretty j).
Proof.
  induction l as [|x l IH]; intros i m j; simpl.
  - case_decide; [lia|done].
  - rewrite IH.
    destruct (decide (S i <= j < S i + length l)) as [Hin|Hout].
    + rewrite decide_True by lia. by replace (j - i) with (S (j - S i)) by lia.
    + assert (forall m' : gmap string component,
                 (if Nat.eqb i 0 then <["major" := x]> m'
                  else if Nat.eqb i 1 then <["minor" := x]> m'
                  else if Nat.eqb i 2 then <["patch" := x]> m'
                  else m') !! ("version" +:+ pretty j)
                 = m' !! ("version" +:+ pretty j)) as ->.
      { intros m'. repeat case_match; try done; by rewrite lookup_insert_ne. }
      destruct (decide (i = j)) as [->|Hne].
      * rewrite lookup_insert_eq, decide_True by lia.
        by replace (j - j) with 0 by lia.
      * rewrite lookup_insert_ne by (intros ?%version_key_inj; done).
        by rewrite decide_False by lia.
Qed.

Lemma fill_vars_lookup_alias (l : list component) (name : string) (idx : nat) :
  (name = "major" /\ idx = 0) \/ (name = "minor" /\ idx = 1)
  \/ (name = "patch" /\ idx = 2) ->
  forall i m,
  fill_vars i l m !! name =
    if decide (i <= idx < i + length l) then l !! (idx - i) else m !! name.
Proof.
  intros Halias.
  assert (forall j : nat, name <> "version" +:+ pretty j) as Hnv.
  { intros j. destruct Halias as [[-> _]|[[-> _]|[-> _]]]; done. }
  induction l as [|x l IH]; intros i m; simpl.
  - case_decide; [lia|done].
  - rewrite IH.
    destruct (decide (S i <= idx < S i + length l)) as [Hin|Hout].
    + rewrite decide_True by lia.
      by replace (idx - i) with (S (idx - S i)) by lia.
    + destruct (decide (i = idx)) as [->|Hne].
      * rewrite decide_True by lia. replace (idx - idx) with 0 by lia.
        destruct Halias as [[-> ->]|[[-> ->]|[-> ->]]]; simpl;
          by rewrite lookup_insert_eq.
      * rewrite decide_False by lia.
        destruct Halias as [[-> ->]|[[-> ->]|[-> ->]]];
          destruct i as [|[|[|i]]]; simpl; try done;
          by rewrite ?lookup_insert_ne by done.
Qed.

Lemma fill_vars_lookup_version (l : list component) : forall i m,
  fill_vars i l m !! "version" = m !! "version".
Proof.
  induction l as [|x l IH]; intros i m; simpl; [done|].
  rewrite IH.
  assert (<["version" +:+ pretty i := x]> m !! "version" = m !! "version") as <-.
  { apply lookup_insert_ne, version_key_not_version. }
  destruct i as [|[|[|i]]]; simpl; try done; by rewrite lookup_insert_ne.
Qed.

Lemma fill_vars_lookup_dom (l : list component) : forall i m k,
  is_Some (fill_vars i l m !! k) ->
  is_Some (m !! k) \/ k = "major" \/ k = "minor" \/ k = "patch"
  \/ exists j : nat, i <= j < i + length l /\ k = "version" +:+ pretty j.
Proof.
  induction l as [|x l IH]; intros i m k; simpl; [by left|].
  intros [Hm|[?|[?|[?|(j & Hj & ->)]]]]%IH; auto.
  - assert (is_Some (<["version" +:+ pretty i := x]> m !! k)
            \/ k = "major" \/ k = "minor" \/ k = "patch") as [Hk|?].
    { destruct i as [|[|[|i]]]; simpl in Hm; auto;
        apply lookup_insert_is_Some in Hm as [<-|[_ ?]]; auto. }
    + apply lookup_insert_is_Some in Hk as [<-|[_ ?]]; auto.
      do 4 right. exists i. split; [lia|done].
    + tauto.
  - do 4 right. exists j. split; [lia|done].
Qed.

Lemma substitute_tokens_returns mapping ts :
  Forall (fun t => is_ok (convert mapping t) = true) ts ->
  exists out, substitute_tokens mapping ts = Ok out.
Proof.
  induction 1 as [|t ts Ht _ [out IH]]; simpl; [by eexists|].
  destruct (convert mapping t); [|done]. rewrite IH. simpl. by eexists.
Qed.

Lemma substitute_tokens_raises mapping ts :
  Exists (fun t => is_ok (convert mapping t) = false) ts ->
  exists e t, substitute_tokens mapping ts = Raise e
              /\ t ∈ ts /\ convert mapping t = Raise e.
Proof.
  induction 1 as [t ts Ht|t ts _ (e & t' & IH & Hin & Hc)]; simpl.
  - destruct (convert mapping t) as [|e] eqn:Hc; [done|].
    exists e, t. split; [done|]. split; [by left|done].
  - destruct (convert mapping t) as [s|e0] eqn:Hc0; simpl.
    + rewrite IH. simpl. exists e, t'. split; [done|]. split; [by right|done].
    + exists e0, t. split; [done|]. split; [by left|done].
Qed.

Lemma references_elem template name :
  references template name = true <->
  TNamed name ∈ lex MText template \/ TBraced name ∈ lex MText template.
Proof.
  unfold references. rewrite existsb_exists. split.
  - intros ([]& Hin%list_elem_of_In & Hn); simpl in Hn; try done;
      apply String.eqb_eq in Hn as ->; auto.
  - intros [Hin|Hin]; eexists; (split; [by apply list_elem_of_In|]);
      simpl; by apply String.eqb_eq.
Qed.

Lemma well_formed_elem template :
  well_formed template = true <-> TInvalid ∉ lex MText template.
Proof.
  unfold well_formed. rewrite forallb_forall. split.
  - intros Hall Hin%list_elem_of_In. by apply Hall in Hin.
  - intros Hnin t Hin%list_elem_of_In. destruct t; try done.
Qed.

(** A template with a placeholder that the mapping lacks is refused: with
    [KeyError] for such a placeholder, or with [ValueError] when an
    ill-formed delimiter comes first. *)
Lemma Template_substitute_missing template mapping name :
  references template name = true -> mapping !! name = None ->
  exists e, Template_substitute template mapping = Raise e
    /\ ((e = ValueError /\ well_formed template = false)
        \/ exists n, e = KeyError n /\ references template n = true
                     /\ mapping !! n = None).
Proof.
  intros Href Hnone. unfold Template_substitute.
  destruct (substitute_tokens_raises mapping (lex MText template))
    as (e & t & Hsub & Hin & Hc).
  { apply Exists_exists. apply references_elem in Href as [Hin|Hin].
    - exists (TNamed name). split; [done|]. simpl. by rewrite Hnone.
    - exists (TBraced name). split; [done|]. simpl. by rewrite Hnone. }
  exists e. split; [done|].
  destruct t as [c| |n|n|]; simpl in Hc; try done.
  - right. exists n. destruct (mapping !! n) eqn:Hn; [done|].
    injection Hc as <-. split; [done|]. split; [|done].
    apply references_elem. by left.
  - right. exists n. destruct (mapping !! n) eqn:Hn; [done|].
    injection Hc as <-. split; [done|]. split; [|done].
    apply references_elem. by right.
  - left. injection Hc as <-. split; [done|].
    apply not_true_is_false. intros Hwf%well_formed_elem. by apply Hwf.
Qed.

Lemma Template_substitute_returns template mapping :
  well_formed template = true ->
  (forall name, references template name = true -> is_Some (mapping !! name)) ->
  exists out, Template_substitute template mapping = Ok out.
Proof.
  intros Hwf Hall. apply substitute_tokens_returns, Forall_forall.
  intros t Hin. destruct t as [c| |n|n|]; simpl; try done.
  - destruct (Hall n) as [x ->]; [|done]. apply references_elem. by left.
  - destruct (Hall n) as [x ->]; [|done]. apply references_elem. by right.
  - by apply well_formed_elem in Hwf.
Qed.

(** C7, as the code has it.  For a version string that is not empty, the
    expansion builds exactly the mapping [version] to the full string,
    [version<i>] to the i-th component, [major], [minor] and [patch] to the
    components 0, 1 and 2 when they exist, and substitutes it into the
    template; a well-formed template whose placeholders are all in the
    mapping is expanded, and a template with a placeholder that the mapping
    lacks is refused, with [KeyError] for such a placeholder or with
    [ValueError] when an ill-formed delimiter comes first.  For the empty
    version string the expansion raises [AttributeError]. *)
Theorem substitute_placeholders_spec (template version : string) :
  let vars := tmpl_vars_of version (parse version) in
  vars !! "version" = Some (CStr version)
  /\ (forall i : nat, vars !! ("version" +:+ pretty i) = parse version !! i)
  /\ vars !! "major" = parse version !! 0
  /\ vars !! "minor" = parse version !! 1
  /\ vars !! "patch" = parse version !! 2
  /\ (forall k, is_Some (vars !! k) ->
        k = "version" \/ k = "major" \/ k = "minor" \/ k = "patch"
        \/ exists i : nat, i < length (parse version)
                           /\ k = "version" +:+ pretty i)
  /\ (version <> "" ->
      _substitute_placeholders (VStr template) version
        = Template_substitute template vars)
  /\ (version <> "" -> well_formed template = true ->
      (forall name, references template name = true -> is_Some (vars !! name)) ->
      exists out, _substitute_placeholders (VStr template) version = Ok out)
  /\ (version <> "" ->
      forall name, references template name = true -> vars !! name = None ->
      exists e, _substitute_placeholders (VStr template) version = Raise e
        /\ ((e = ValueError /\ well_formed template = false)
            \/ exists n, e = KeyError n /\ references template n = true
                         /\ vars !! n = None))
  /\ (version = "" ->
      _substitute_placeholders (VStr template) version = Raise AttributeError).
Proof.
  intros vars.
  assert (version <> "" ->
          _substitute_placeholders (VStr template) version
            = Template_substitute template vars) as Hsub.
  { intros Hne. unfold _substitute_placeholders, get_version.
    rewrite LooseVersion_init_version.
    by destruct version. }
  unfold vars, tmpl_vars_of. repeat split.
  - by rewrite fill_vars_lookup_version, lookup_singleton_eq.
  - intros i. rewrite fill_vars_lookup_index. case_decide.
    + by replace (i - 0) with i by lia.
    + rewrite lookup_singleton_ne by (intros ?; by eapply version_key_not_version).
      symmetry. apply lookup_ge_None. lia.
  - rewrite (fill_vars_lookup_alias _ "major" 0) by auto.
    case_decide; [done|]. rewrite lookup_singleton_ne by done.
    symmetry. apply lookup_ge_None. lia.
  - rewrite (fill_vars_lookup_alias _ "minor" 1) by auto.
    case_decide; [done|]. rewrite lookup_singleton_ne by done.
    symmetry. apply lookup_ge_None. lia.
  - rewrite (fill_vars_lookup_alias _ "patch" 2) by auto.
    case_decide; [done|]. rewrite lookup_singleton_ne by done.
    symmetry. apply lookup_ge_None. lia.
  - intros k [Hk|[?|[?|[?|(j & Hj & ->)]]]]%fill_vars_lookup_dom; auto.
    + apply lookup_singleton_is_Some in Hk. auto.
    + do 4 right. exists j. split; [lia|done].
  - done.
  - intros Hne Hwf Hall. rewrite Hsub by done.
    by apply Template_substitute_returns.
  - intros Hne name Href Hnone. rewrite Hsub by done.
    by apply Template_substitute_missing with name.
  - intros ->. reflexivity.
Qed.

Lemma substitute_placeholders_spec_witness :
  "3.4" <> ""
  /\ references "https://x/app-$version-$patch.zip" "patch" = true
  /\ tmpl_vars_of "3.4" (parse "3.4") !! "patch" = None
  /\ exists e,
       _substitute_placeholders (VStr "https://x/app-$version-$patch.zip") "3.4"
         = Raise e
       /\ ((e = ValueError
            /\ well_formed "https://x/app-$version-$patch.zip" = false)
           \/ exists n, e = KeyError n
                /\ references "https://x/app-$version-$patch.zip" n = true
                /\ tmpl_vars_of "3.4" (parse "3.4") !! n = None).
Proof.
  split; [discriminate|]. split; [reflexivity|]. split; [reflexivity|].
  apply (substitute_placeholders_spec "https://x/app-$version-$patch.zip" "3.4")
    with (name := "patch"); [discriminate | reflexivity | reflexivity].
Defined.

(** The examples of the spec, and a component that is a number: it is
    written without its leading zeros. *)
Example substitute_placeholders_examples :
  _substitute_placeholders (VStr "https://x/v$major.$minor/app-$version.zip") "3.4.5"
    = Ok "https://x/v3.4/app-3.4.5.zip"
  /\ _substitute_placeholders (VStr "https://x/app-$patch.zip") "3.4"
     = Raise (KeyError "patch")
  /\ _substitute_placeholders (VStr "${version0}_${version1}$$") "3.04"
     = Ok "3_4$".
Proof. repeat split; reflexivity. Qed.

(** C7 fails as stated: for the empty version string no mapping is built,
    although the template has no placeholder; and a template with an
    ill-formed delimiter before the missing placeholder is refused with
    [ValueError]. *)
Lemma substitute_placeholders_raises :
  _substitute_placeholders (VStr "https://x/app.zip") "" = Raise AttributeError
  /\ Template_substitute "https://x/app.zip" (tmpl_vars_of "" (parse ""))
     = Ok "https://x/app.zip"
  /\ _substitute_placeholders (VStr "https://x/$/app-$patch.zip") "3.4"
     = Raise ValueError.
Proof. repeat split; reflexivity. Qed.

(** ** [_update_version] *)

Lemma app_two {A} (l : list A) (x y : A) : ((l ++ [x]) ++ [y] = l ++ [x; y])%list.
Proof. by rewrite <- app_assoc. Qed.

(** C1, as the code has it: when the metadata call of [_update_version]
    raises an exception that is an instance of one of the four classes
    named by the [except] clause, the state of the object becomes [BROKEN],
    nothing else of it changes, and the call returns normally.  Every other
    exception of the metadata call, among them a timeout raised as
    [asyncio.TimeoutError], leaves [_update_version] and the object is not
    touched. *)
Theorem update_version_on_failure {env : Collaborators}
  (latest_version latest_url : string) (follow_redirects : bool) (s : store)
  (e : exn) :
  get_extra_data_info_from_url latest_url follow_redirects = Raise e ->
  (isinstance e [ClientError; ServerConnectionError;
                 ServerDisconnectedError; ServerTimeoutError] = true ->
   exists s',
     _update_version (Some latest_version) (Some latest_url) follow_redirects s
       = (Ok tt, s')
     /\ state (data s') = BROKEN
     /\ new_version (data s') = new_version (data s)
     /\ checker_data (data s') = checker_data (data s)
     /\ filename (data s') = filename (data s)
     /\ trace s' = (trace s ++ [EvExtraDataInfo latest_url follow_redirects;
                                EvSetState BROKEN])%list)
  /\ (isinstance e [ClientError; ServerConnectionError;
                    ServerDisconnectedError; ServerTimeoutError] = false ->
      _update_version (Some latest_version) (Some latest_url) follow_redirects s
        = (Raise e,
           mkStore (data s)
             (trace s ++ [EvExtraDataInfo latest_url follow_redirects]))).
Proof.
  intros Hfetch.
  unfold _update_version, try_except_else, fetch_extra_data_info.
  unfold mbind, M_bind, emit, lift. rewrite Hfetch.
  unfold update_version_catches. split; intros Hcaught; rewrite Hcaught.
  - eexists. unfold assign_state.
    cbn [data trace state new_version checker_data filename].
    rewrite app_two. by repeat split.
  - done.
Qed.

Lemma update_version_on_failure_witness :
  get_extra_data_info_from_url (Collaborators := env_reset)
    "https://x/app-2.0.zip" false = Raise server_reset
  /\ isinstance server_reset [ClientError; ServerConnectionError;
                               ServerDisconnectedError; ServerTimeoutError] = true
  /\ exists s',
      _update_version (env := env_reset)
        (Some "2.0") (Some "https://x/app-2.0.zip") false (example_store [])
        = (Ok tt, s')
      /\ state (data s') = BROKEN
      /\ new_version (data s') = new_version (data (example_store []))
      /\ checker_data (data s') = checker_data (data (example_store []))
      /\ filename (data s') = filename (data (example_store []))
      /\ trace s' = (trace (example_store [])
                     ++ [EvExtraDataInfo "https://x/app-2.0.zip" false;
                         EvSetState BROKEN])%list.
Proof.
  split; [reflexivity|]. split; [reflexivity|].
  destruct (update_version_on_failure (env := env_reset)
              "2.0" "https://x/app-2.0.zip" false (example_store [])
              server_reset) as [Hcaught _]; [reflexivity|].
  apply Hcaught. reflexivity.
Defined.

(** C1 fails as stated: a timeout that the HTTP client raises as
    [asyncio.TimeoutError] is a transport failure of the metadata call, the
    [except] clause does not name it, and it leaves [_update_version]: the
    state of the object stays as it was. *)
Lemma update_version_timeout_escapes :
  get_extra_data_info_from_url (Collaborators := env_timeout)
    "https://x/app-2.0.zip" false = Raise asyncio_timeout
  /\ _update_version (env := env_timeout)
       (Some "2.0") (Some "https://x/app-2.0.zip") false (example_store [])
     = (Raise asyncio_timeout,
        mkStore (example_data [])
          [EvExtraDataInfo "https://x/app-2.0.zip" false])
  /\ state (data (snd (_update_version (env := env_timeout)
                         (Some "2.0") (Some "https://x/app-2.0.zip") false
                         (example_store [])))) = OK.
Proof. repeat split; reflexivity. Qed.

(** C9: when the metadata call succeeds, [_update_version] calls
    [set_new_version] once, with the descriptor of the metadata call in
    which the version is replaced by the version drawn from the page,
    whatever version the metadata call gave. *)
Theorem update_version_installs {env : Collaborators}
  (latest_version latest_url : string) (follow_redirects : bool) (s : store)
  (f : ExternalFile) :
  get_extra_data_info_from_url latest_url follow_redirects = Ok f ->
  let installed := replace_version latest_version f in
  _update_version (Some latest_version) (Some latest_url) follow_redirects s
    = (Ok tt,
       mkStore (set_new_version installed (data s))
         (trace s ++ [EvExtraDataInfo latest_url follow_redirects;
                      EvSetNewVersion installed]))
  /\ ef_version installed = Some latest_version
  /\ ef_url installed = ef_url f
  /\ ef_checksum installed = ef_checksum f
  /\ ef_size installed = ef_size f.
Proof.
  intros Hfetch installed.
  unfold _update_version, try_except_else, fetch_extra_data_info.
  unfold mbind, M_bind, emit, lift. rewrite Hfetch.
  unfold call_set_new_version. cbn [data trace]. by rewrite app_two.
Qed.

Lemma update_version_installs_witness :
  get_extra_data_info_from_url (Collaborators := env_found)
    "https://x/app-2.0.zip" false
    = Ok (mkExternalFile "https://x/app-2.0.zip" "sha256:0a1b" 1024 (Some "0.0"))
  /\ _update_version (env := env_found)
       (Some "2.0") (Some "https://x/app-2.0.zip") false (example_store [])
     = (Ok tt,
        mkStore
          (mkExternalData "app.tar.gz" ∅ OK
             (Some (mkExternalFile "https://x/app-2.0.zip" "sha256:0a1b" 1024
                      (Some "2.0"))))
          [EvExtraDataInfo "https://x/app-2.0.zip" false;
           EvSetNewVersion
             (mkExternalFile "https://x/app-2.0.zip" "sha256:0a1b" 1024
                (Some "2.0"))]).
Proof.
  split; [reflexivity|].
  apply (update_version_installs (env := env_found)
           "2.0" "https://x/app-2.0.zip" false (example_store [])
           (mkExternalFile "https://x/app-2.0.zip" "sha256:0a1b" 1024 (Some "0.0"))).
  reflexivity.
Defined.

Lemma update_version_cases {env : Collaborators}
  (v u : string) (follow_redirects : bool) (s : store) :
  _update_version (Some v) (Some u) follow_redirects s =
    match get_extra_data_info_from_url u follow_redirects with
    | Ok f =>
        (Ok tt,
         mkStore (set_new_version (replace_version v f) (data s))
           (trace s ++ [EvExtraDataInfo u follow_redirects;
                        EvSetNewVersion (replace_version v f)]))
    | Raise e =>
        if update_version_catches e
        then (Ok tt,
              mkStore (with_state BROKEN (data s))
                (trace s ++ [EvExtraDataInfo u follow_redirects;
                             EvSetState BROKEN]))
        else (Raise e,
              mkStore (data s) (trace s ++ [EvExtraDataInfo u follow_redirects]))
    end.
Proof.
  unfold _update_version, try_except_else, fetch_extra_data_info.
  unfold mbind, M_bind, emit, lift.
  destruct (get_extra_data_info_from_url u follow_redirects) as [f|e].
  - unfold call_set_new_version. cbn [data trace]. by rewrite app_two.
  - destruct (update_version_catches e); [|done].
    unfold assign_state, with_state. cbn [data trace]. by rewrite app_two.
Qed.

(** ** [check] *)

Lemma check_unfold {env : Collaborators} (s : store) :
  check s = match check_config (data s) with
            | Ok l => check_body l s
            | Raise e => (Raise e, s)
            end.
Proof.
  unfold check, get_data, lift, mbind, M_bind.
  by destruct (check_config (data s)).
Qed.

Lemma check_body_unfold {env : Collaborators} (l : check_locals) (s : store) :
  check_body l s =
    match session_get_text (url l) with
    | Raise e => (Raise e, after_get (url l) s)
    | Ok html =>
        match check_extraction html (combo_pattern l) (version_pattern l)
                (url_pattern l) (url_template l) (sort_matches l) with
        | Raise e => (Raise e, after_get (url l) s)
        | Ok (latest_version, latest_url) =>
            if negb (opt_str_truthy latest_version)
               || negb (opt_str_truthy latest_url)
            then (Ok tt, after_get (url l) s)
            else
              match latest_url with
              | Some u =>
                  match urljoin (url l) u with
                  | Ok abs_url =>
                      _update_version latest_version (Some abs_url) false
                        (after_get (url l) s)
                  | Raise e => (Raise e, after_get (url l) s)
                  end
              | None => (Ok tt, after_get (url l) s)
              end
        end
    end.
Proof.
  unfold check_body, fetch_text, emit, lift, mbind, M_bind, after_get.
  destruct (session_get_text (url l)) as [html|e]; [|done].
  destruct (check_extraction _ _ _ _ _ _) as [[lv lu]|e]; [|done].
  cbn [fst snd].
  destruct (negb (opt_str_truthy lv) || negb (opt_str_truthy lu)); [done|].
  destruct lu as [u|]; [|done].
  by destruct (urljoin (url l) u).
Qed.

(** C2: one run of [check] mutates the object at most once.  The trace it
    adds holds no mutation and the object is unchanged, or it holds the
    single mutation [state = BROKEN], or it holds the single call of
    [set_new_version]; the two mutations never occur in the same run. *)
Theorem check_mutates_at_most_once {env : Collaborators} (s : store) :
  exists new,
    trace (snd (check s)) = (trace s ++ new)%list
    /\ length (mutations new) <= 1
    /\ ((mutations new = [] /\ data (snd (check s)) = data s)
        \/ (mutations new = [EvSetState BROKEN]
            /\ data (snd (check s)) = with_state BROKEN (data s)
            /\ fst (check s) = Ok tt)
        \/ (exists f, mutations new = [EvSetNewVersion f]
                      /\ data (snd (check s)) = set_new_version f (data s)
                      /\ fst (check s) = Ok tt)).
Proof.
  rewrite check_unfold.
  destruct (check_config (data s)) as [l|e]; cbn [fst snd].
  2: { exists []. rewrite app_nil_r. split; [done|]. split; [simpl; lia|].
       by left. }
  rewrite check_body_unfold.
  assert (exists new, trace (after_get (url l) s) = (trace s ++ new)%list
                      /\ length (mutations new) <= 1
                      /\ mutations new = []
                      /\ data (after_get (url l) s) = data s) as Hget.
  { exists [EvGet (url l)]. repeat split; simpl; lia. }
  destruct (session_get_text (url l)) as [html|e]; cbn [fst snd].
  2: { destruct Hget as (new & ? & ? & ? & ?). exists new. auto. }
  destruct (check_extraction _ _ _ _ _ _) as [[lv lu]|e]; cbn [fst snd].
  2: { destruct Hget as (new & ? & ? & ? & ?). exists new. auto. }
  destruct (negb (opt_str_truthy lv) || negb (opt_str_truthy lu)) eqn:Hmiss;
    cbn [fst snd].
  { destruct Hget as (new & ? & ? & ? & ?). exists new. auto. }
  destruct lu as [u|]; cbn [fst snd].
  2: { destruct Hget as (new & ? & ? & ? & ?). exists new. auto. }
  destruct (urljoin (url l) u) as [abs_url|e]; cbn [fst snd].
  2: { destruct Hget as (new & ? & ? & ? & ?). exists new. auto. }
  destruct lv as [v|]; [|done]. clear Hget.
  rewrite update_version_cases. unfold after_get. cbn [data trace].
  destruct (get_extra_data_info_from_url abs_url false) as [f|e];
    cbn [fst snd data trace].
  - exists [EvGet (url l); EvExtraDataInfo abs_url false;
            EvSetNewVersion (replace_version v f)].
    split; [by rewrite <- app_assoc|]. split; [simpl; lia|].
    right. right. by exists (replace_version v f).
  - destruct (update_version_catches e); cbn [fst snd data trace].
    + exists [EvGet (url l); EvExtraDataInfo abs_url false; EvSetState BROKEN].
      split; [by rewrite <- app_assoc|]. split; [simpl; lia|].
      right. by left.
    + exists [EvGet (url l); EvExtraDataInfo abs_url false].
      split; [by rewrite <- app_assoc|]. split; [simpl; lia|].
      by left.
Qed.

(** C8: when the extraction yields no latest version or no latest URL,
    [check] returns normally and leaves the object as it was: the only
    event of the run is the fetch of the page. *)
Theorem check_extraction_miss {env : Collaborators} (s : store)
  (l : check_locals) (html : string) (latest_version latest_url : option string) :
  check_config (data s) = Ok l ->
  session_get_text (url l) = Ok html ->
  check_extraction html (combo_pattern l) (version_pattern l) (url_pattern l)
    (url_template l) (sort_matches l) = Ok (latest_version, latest_url) ->
  opt_str_truthy latest_version = false \/ opt_str_truthy latest_url = false ->
  check s = (Ok tt, mkStore (data s) (trace s ++ [EvGet (url l)]))
  /\ mutations [EvGet (url l)] = [].
Proof.
  intros Hcfg Hget Hext Hmiss. split; [|done].
  rewrite check_unfold, Hcfg, check_body_unfold, Hget, Hext.
  by destruct Hmiss as [-> | ->]; rewrite ?orb_true_r.
Qed.

Lemma check_extraction_miss_witness :
  check_config (env := env_miss)
    (data (example_store cd_version_template))
    = Ok (mkLocals (env := env_miss) (VStr "https://example.com/downloads/") None (Some pattern_v)
            None (Some (VStr "https://example.com/d/app-$version.tar.gz"))
            (VBool true))
  /\ session_get_text (Collaborators := env_miss)
       (VStr "https://example.com/downloads/") = Ok "nothing here"
  /\ check_extraction (env := env_miss)
       "nothing here" None (Some pattern_v) None
       (Some (VStr "https://example.com/d/app-$version.tar.gz")) (VBool true)
     = Ok (None, None)
  /\ opt_str_truthy None = false
  /\ check (env := env_miss)
       (example_store cd_version_template)
     = (Ok tt,
        mkStore (example_data cd_version_template)
          [EvGet (VStr "https://example.com/downloads/")]).
Proof.
  split; [reflexivity|]. split; [reflexivity|]. split; [reflexivity|].
  split; [reflexivity|].
  apply (check_extraction_miss (env := env_miss)
           (example_store cd_version_template)
           (mkLocals (env := env_miss) (VStr "https://example.com/downloads/") None
              (Some pattern_v) None
              (Some (VStr "https://example.com/d/app-$version.tar.gz"))
              (VBool true))
           "nothing here" None None);
    [reflexivity | reflexivity | reflexivity | by left].
Defined.













(** A run with a combo pattern, a version pattern and a URL template: the
    version and the URL are those of the combo match, and the version of
    the installed descriptor is the version of the page. *)
Example check_combo_example :
  check (env := env_pairs)
    (example_store cd_combo_and_version)
  = (Ok tt,
     mkStore
       (mkExternalData "app.tar.gz" (list_to_map cd_combo_and_version) OK
          (Some (mkExternalFile "https://example.com/downloads//d/app-2.1.tar.gz"
                   "sha256:0a1b" 1024 (Some "2.1"))))
       [EvGet (VStr "https://example.com/downloads/");
        EvExtraDataInfo "https://example.com/downloads//d/app-2.1.tar.gz" false;
        EvSetNewVersion
          (mkExternalFile "https://example.com/downloads//d/app-2.1.tar.gz"
             "sha256:0a1b" 1024 (Some "2.1"))]).
Proof. reflexivity. Qed.

(** * Further properties *)

(** ** The outcomes of [check] *)

Lemma check_config_url {env : Collaborators} (d : ExternalData) l :
  check_config d = Ok l -> checker_data d !! "url" = Some (url l).
Proof.
  unfold check_config, py_assert.
  destruct (should_check d); [|done]. simpl.
  destruct (checker_data d !! "url") as [u|]; [|done]. simpl.
  destruct (_get_pattern _ "pattern") as [cp|]; [|done]. simpl.
  destruct (_get_pattern _ "version-pattern") as [vp|]; [|done]. simpl.
  destruct (_get_pattern _ "url-pattern") as [up|]; [|done]. simpl.
  destruct (bool_decide (is_Some cp) || _); [|done]. simpl.
  by intros [= <-].
Qed.

(** Every run of [check] ends in one of five ways. *)
Lemma check_outcomes {env : Collaborators} (s : store) :
  (exists e, check_config (data s) = Raise e /\ check s = (Raise e, s))
  \/ exists l, check_config (data s) = Ok l
     /\ ((exists r, check s = (r, after_get (url l) s))
         \/ (exists v a f,
               get_extra_data_info_from_url a false = Ok f
               /\ check s =
                    (Ok tt,
                     mkStore (set_new_version (replace_version v f) (data s))
                       (trace s ++ [EvGet (url l); EvExtraDataInfo a false;
                                    EvSetNewVersion (replace_version v f)])))
         \/ (exists a e,
               update_version_catches e = true
               /\ check s =
                    (Ok tt,
                     mkStore (with_state BROKEN (data s))
                       (trace s ++ [EvGet (url l); EvExtraDataInfo a false;
                                    EvSetState BROKEN])))
         \/ (exists a e,
               update_version_catches e = false
               /\ check s =
                    (Raise e,
                     mkStore (data s)
                       (trace s ++ [EvGet (url l); EvExtraDataInfo a false])))).
Proof.
  rewrite check_unfold.
  destruct (check_config (data s)) as [l|e]; [right|left; by exists e].
  exists l. split; [done|]. rewrite check_body_unfold.
  destruct (session_get_text (url l)) as [html|e]; [|left; by eexists].
  destruct (check_extraction _ _ _ _ _ _) as [[lv lu]|e]; [|left; by eexists].
  destruct (negb (opt_str_truthy lv) || negb (opt_str_truthy lu)) eqn:Hmiss;
    [left; by eexists|].
  destruct lu as [u|]; [|left; by eexists].
  destruct (urljoin (url l) u) as [a|e]; [|left; by eexists].
  destruct lv as [v|]; [|done].
  rewrite update_version_cases. unfold after_get. cbn [data trace].
  destruct (get_extra_data_info_from_url a false) as [f|e] eqn:Hinfo.
  - right. left. exists v, a, f. by rewrite <- app_assoc.
  - destruct (update_version_catches e) eqn:Hc.
    + right. right. left. exists a, e. by rewrite <- app_assoc.
    + right. right. right. exists a, e. by rewrite <- app_assoc.
Qed.

(** X1: a run of [check] that ends with an exception leaves the object as
    it was: no mutation is in the trace it adds. *)
Theorem check_raise_keeps_data {env : Collaborators} (s : store) (e : exn) :
  fst (check s) = Raise e ->
  data (snd (check s)) = data s
  /\ exists new, trace (snd (check s)) = (trace s ++ new)%list
                 /\ mutations new = [].
Proof.
  destruct (check_outcomes s) as [(e' & _ & ->)|(l & _ & Hcase)].
  - intros _. split; [done|]. exists []. by rewrite app_nil_r.
  - destruct Hcase as [(r & ->)|[(v & a & f & _ & ->)|[(a & e' & _ & ->)|(a & e' & _ & ->)]]];
      cbn [fst snd]; try done; intros _; (split; [done|]).
    + by exists [EvGet (url l)].
    + by exists [EvGet (url l); EvExtraDataInfo a false].
Qed.

Lemma check_raise_keeps_data_witness :
  fst (check (env := env_versions) (example_store cd_combo_one_group))
    = Raise AssertionError
  /\ data (snd (check (env := env_versions) (example_store cd_combo_one_group)))
     = data (example_store cd_combo_one_group)
  /\ exists new,
       trace (snd (check (env := env_versions)
                     (example_store cd_combo_one_group)))
         = (trace (example_store cd_combo_one_group) ++ new)%list
       /\ mutations new = [].
Proof.
  split; [reflexivity|].
  apply (check_raise_keeps_data (env := env_versions)
           (example_store cd_combo_one_group) AssertionError).
  reflexivity.
Defined.

(** X2: the events of one run of [check] come in a fixed order: the fetch
    of the configured page URL, then one metadata call, which never follows
    redirects, then one mutation; a run may stop after any of them, and no
    call is repeated. *)
Theorem check_trace_order {env : Collaborators} (s : store) :
  exists new,
    trace (snd (check s)) = (trace s ++ new)%list
    /\ (new = []
        \/ exists u, checker_data (data s) !! "url" = Some u
                     /\ check_trace_shape u new).
Proof.
  unfold check_trace_shape.
  destruct (check_outcomes s) as [(e' & _ & ->)|(l & Hcfg & Hcase)].
  - exists []. rewrite app_nil_r. auto.
  - apply check_config_url in Hcfg.
    destruct Hcase as [(r & ->)|[(v & a & f & _ & ->)|[(a & e' & _ & ->)|(a & e' & _ & ->)]]];
      cbn [snd trace after_get]; eexists; (split; [reflexivity|]); right;
      exists (url l); (split; [done|]); eauto 10.
Qed.

(** X3: when the page yields a version and a URL, the URL joins with the
    page URL and the metadata call succeeds, [check] installs, by one call
    of [set_new_version], the descriptor of the joined URL with the version
    drawn from the page. *)
Theorem check_installs {env : Collaborators} (s : store) (l : check_locals)
  (html v u a : string) (f : ExternalFile) :
  check_config (data s) = Ok l ->
  session_get_text (url l) = Ok html ->
  check_extraction html (combo_pattern l) (version_pattern l) (url_pattern l)
    (url_template l) (sort_matches l) = Ok (Some v, Some u) ->
  str_truthy v = true -> str_truthy u = true ->
  urljoin (url l) u = Ok a ->
  get_extra_data_info_from_url a false = Ok f ->
  check s =
    (Ok tt,
     mkStore (set_new_version (replace_version v f) (data s))
       (trace s ++ [EvGet (url l); EvExtraDataInfo a false;
                    EvSetNewVersion (replace_version v f)])).
Proof.
  intros Hcfg Hget Hext Hv Hu Hjoin Hinfo.
  rewrite check_unfold, Hcfg, check_body_unfold, Hget, Hext.
  cbn [opt_str_truthy]. rewrite Hv, Hu, Hjoin. cbn [negb orb].
  rewrite update_version_cases, Hinfo. unfold after_get. cbn [data trace].
  by rewrite <- app_assoc.
Qed.

Lemma check_installs_witness :
  check_config (env := env_pairs) (data (example_store cd_combo_and_version))
    = Ok (mkLocals (env := env_pairs) (VStr "https://example.com/downloads/")
            (Some pattern_pair) (Some pattern_v) None
            (Some (VStr "https://example.com/d/app-$version.tar.gz"))
            (VBool true))
  /\ session_get_text (Collaborators := env_pairs)
       (VStr "https://example.com/downloads/") = Ok "/d/app-2.1.tar.gz@2.1 v9.9"
  /\ check_extraction (env := env_pairs) "/d/app-2.1.tar.gz@2.1 v9.9"
       (Some pattern_pair) (Some pattern_v) None
       (Some (VStr "https://example.com/d/app-$version.tar.gz")) (VBool true)
     = Ok (Some "2.1", Some "/d/app-2.1.tar.gz")
  /\ str_truthy "2.1" = true /\ str_truthy "/d/app-2.1.tar.gz" = true
  /\ urljoin (Collaborators := env_pairs)
       (VStr "https://example.com/downloads/") "/d/app-2.1.tar.gz"
     = Ok "https://example.com/downloads//d/app-2.1.tar.gz"
  /\ get_extra_data_info_from_url (Collaborators := env_pairs)
       "https://example.com/downloads//d/app-2.1.tar.gz" false
     = Ok (mkExternalFile "https://example.com/downloads//d/app-2.1.tar.gz"
             "sha256:0a1b" 1024 (Some "0.0"))
  /\ check (env := env_pairs) (example_store cd_combo_and_version)
     = (Ok tt,
        mkStore
          (set_new_version (Collaborators := env_pairs)
             (replace_version "2.1"
                (mkExternalFile "https://example.com/downloads//d/app-2.1.tar.gz"
                   "sha256:0a1b" 1024 (Some "0.0")))
             (data (example_store cd_combo_and_version)))
          (trace (example_store cd_combo_and_version)
           ++ [EvGet (VStr "https://example.com/downloads/");
               EvExtraDataInfo "https://example.com/downloads//d/app-2.1.tar.gz"
                 false;
               EvSetNewVersion
                 (replace_version "2.1"
                    (mkExternalFile
                       "https://example.com/downloads//d/app-2.1.tar.gz"
                       "sha256:0a1b" 1024 (Some "0.0")))])).
Proof.
  repeat (split; [reflexivity|]).
  apply (check_installs (env := env_pairs)
           (example_store cd_combo_and_version)
           (mkLocals (env := env_pairs) (VStr "https://example.com/downloads/")
              (Some pattern_pair) (Some pattern_v) None
              (Some (VStr "https://example.com/d/app-$version.tar.gz"))
              (VBool true))
           "/d/app-2.1.tar.gz@2.1 v9.9" "2.1" "/d/app-2.1.tar.gz"
           "https://example.com/downloads//d/app-2.1.tar.gz"
           (mkExternalFile "https://example.com/downloads//d/app-2.1.tar.gz"
              "sha256:0a1b" 1024 (Some "0.0")));
    reflexivity.
Defined.

(** X4: when the page yields a version and a URL but the metadata call
    fails with an exception that the [except] clause names, [check] returns
    normally and the only change of the object is [state = BROKEN]; with any
    other exception of the metadata call, [check] raises it and the object
    is unchanged. *)
Theorem check_metadata_failure {env : Collaborators} (s : store)
  (l : check_locals) (html v u a : string) (e : exn) :
  check_config (data s) = Ok l ->
  session_get_text (url l) = Ok html ->
  check_extraction html (combo_pattern l) (version_pattern l) (url_pattern l)
    (url_template l) (sort_matches l) = Ok (Some v, Some u) ->
  str_truthy v = true -> str_truthy u = true ->
  urljoin (url l) u = Ok a ->
  get_extra_data_info_from_url a false = Raise e ->
  check s =
    if update_version_catches e
    then (Ok tt,
          mkStore (with_state BROKEN (data s))
            (trace s ++ [EvGet (url l); EvExtraDataInfo a false;
                         EvSetState BROKEN]))
    else (Raise e,
          mkStore (data s)
            (trace s ++ [EvGet (url l); EvExtraDataInfo a false])).
Proof.
  intros Hcfg Hget Hext Hv Hu Hjoin Hinfo.
  rewrite check_unfold, Hcfg, check_body_unfold, Hget, Hext.
  cbn [opt_str_truthy]. rewrite Hv, Hu, Hjoin. cbn [negb orb].
  rewrite update_version_cases, Hinfo. unfold after_get. cbn [data trace].
  destruct (update_version_catches e); by rewrite <- app_assoc.
Qed.

Lemma check_metadata_failure_witness :
  check_config (env := env_pairs_reset)
    (data (example_store cd_combo_and_version))
    = Ok (mkLocals (env := env_pairs_reset)
            (VStr "https://example.com/downloads/")
            (Some pattern_pair) (Some pattern_v) None
            (Some (VStr "https://example.com/d/app-$version.tar.gz"))
            (VBool true))
  /\ session_get_text (Collaborators := env_pairs_reset)
       (VStr "https://example.com/downloads/") = Ok "/d/app-2.1.tar.gz@2.1 v9.9"
  /\ check_extraction (env := env_pairs_reset) "/d/app-2.1.tar.gz@2.1 v9.9"
       (Some pattern_pair) (Some pattern_v) None
       (Some (VStr "https://example.com/d/app-$version.tar.gz")) (VBool true)
     = Ok (Some "2.1", Some "/d/app-2.1.tar.gz")
  /\ str_truthy "2.1" = true /\ str_truthy "/d/app-2.1.tar.gz" = true
  /\ urljoin (Collaborators := env_pairs_reset)
       (VStr "https://example.com/downloads/") "/d/app-2.1.tar.gz"
     = Ok "https://example.com/downloads//d/app-2.1.tar.gz"
  /\ get_extra_data_info_from_url (Collaborators := env_pairs_reset)
       "https://example.com/downloads//d/app-2.1.tar.gz" false
     = Raise server_reset
  /\ check (env := env_pairs_reset) (example_store cd_combo_and_version)
     = (Ok tt,
        mkStore (with_state BROKEN (data (example_store cd_combo_and_version)))
          (trace (example_store cd_combo_and_version)
           ++ [EvGet (VStr "https://example.com/downloads/");
               EvExtraDataInfo "https://example.com/downloads//d/app-2.1.tar.gz"
                 false;
               EvSetState BROKEN])).
Proof.
  repeat (split; [reflexivity|]).
  apply (check_metadata_failure (env := env_pairs_reset)
           (example_store cd_combo_and_version)
           (mkLocals (env := env_pairs_reset)
              (VStr "https://example.com/downloads/")
              (Some pattern_pair) (Some pattern_v) None
              (Some (VStr "https://example.com/d/app-$version.tar.gz"))
              (VBool true))
           "/d/app-2.1.tar.gz@2.1 v9.9" "2.1" "/d/app-2.1.tar.gz"
           "https://example.com/downloads//d/app-2.1.tar.gz" server_reset);
    reflexivity.
Defined.

(** ** The configuration *)

(** X5: [_get_pattern] gives [None] for a missing key, the compiled
    pattern when the compilation succeeds, and it never raises [KeyError]:
    a [KeyError] of the compilation is taken for a missing key, every other
    exception of the compilation is raised. *)
Theorem get_pattern_no_key_error {env : Collaborators}
  (cd : gmap string value) (name : string) :
  (forall k, _get_pattern cd name <> Raise (KeyError k))
  /\ (cd !! name = None -> _get_pattern cd name = Ok None)
  /\ (forall v p, cd !! name = Some v -> re_compile v = Ok p ->
        _get_pattern cd name = Ok (Some p))
  /\ (forall v e, cd !! name = Some v -> re_compile v = Raise e ->
        _get_pattern cd name
          = match e with KeyError _ => Ok None | _ => Raise e end)
  /\ (forall p, _get_pattern cd name = Ok (Some p) ->
        exists v, cd !! name = Some v /\ re_compile v = Ok p).
Proof.
  unfold _get_pattern. repeat split.
  - intros k. destruct (cd !! name) as [v|]; [|done].
    destruct (re_compile v) as [p|[]]; done.
  - by intros ->.
  - by intros v p -> ->.
  - intros v e -> ->. by destruct e.
  - intros p. destruct (cd !! name) as [v|]; [|done].
    destruct (re_compile v) as [p'|[]] eqn:Hc; try done.
    intros [= ->]. by exists v.
Qed.

Lemma get_pattern_no_key_error_witness :
  (list_to_map cd_bad_version_pattern : gmap string value) !! "version-pattern"
    = Some (VStr "v(\S+")
  /\ re_compile (Collaborators := env_pairs) (VStr "v(\S+")
     = Raise (Foreign [OtherClass "re.error"])
  /\ _get_pattern (env := env_pairs) (list_to_map cd_bad_version_pattern)
       "version-pattern" = Raise (Foreign [OtherClass "re.error"]).
Proof.
  split; [reflexivity|]. split; [reflexivity|].
  destruct (get_pattern_no_key_error (env := env_pairs)
              (list_to_map cd_bad_version_pattern) "version-pattern")
    as (_ & _ & _ & Hraise & _).
  apply (Hraise (VStr "v(\S+") (Foreign [OtherClass "re.error"]));
    reflexivity.
Defined.

(** X6: a configuration that the checker does not own, or that has no key
    [url], is refused before any pattern is compiled and before any network
    call: with [AssertionError] in the first case, with [KeyError] for
    [url] in the second; the store is untouched. *)
Theorem check_refuses_configuration {env : Collaborators} (s : store) :
  (should_check (data s) = false -> check s = (Raise AssertionError, s))
  /\ (should_check (data s) = true ->
      checker_data (data s) !! "url" = None ->
      check s = (Raise (KeyError "url"), s)).
Proof.
  rewrite check_unfold. unfold check_config, py_assert. split.
  - by intros ->.
  - by intros -> ->.
Qed.

Lemma check_refuses_configuration_witness :
  should_check (Collaborators := env_pairs) (data (example_store cd_no_url))
    = true
  /\ checker_data (data (example_store cd_no_url)) !! "url" = None
  /\ check (env := env_pairs) (example_store cd_no_url)
     = (Raise (KeyError "url"), example_store cd_no_url).
Proof.
  split; [reflexivity|]. split; [reflexivity|].
  apply (check_refuses_configuration (env := env_pairs)
           (example_store cd_no_url)); reflexivity.
Defined.

(** X7: the three patterns are compiled before the page is fetched,
    whether the run would use them or not: when the combo pattern compiles
    and the version pattern does not, [check] raises the exception of the
    compilation and makes no network call, although the combo pattern
    alone would have decided the extraction. *)
Theorem check_compiles_unused_patterns {env : Collaborators} (s : store)
  (u v : value) (cp : option Pattern) (e : exn) :
  should_check (data s) = true ->
  checker_data (data s) !! "url" = Some u ->
  _get_pattern (checker_data (data s)) "pattern" = Ok cp ->
  checker_data (data s) !! "version-pattern" = Some v ->
  re_compile v = Raise e ->
  (forall k, e <> KeyError k) ->
  check s = (Raise e, s).
Proof.
  intros Hsc Hurl Hcp Hv Hc Hne.
  assert (_get_pattern (checker_data (data s)) "version-pattern" = Raise e)
    as Hvp.
  { unfold _get_pattern. rewrite Hv, Hc.
    destruct e; try done. by destruct (Hne key). }
  rewrite check_unfold. unfold check_config, py_assert.
  rewrite Hsc, Hurl. simpl. rewrite Hcp. simpl. by rewrite Hvp.
Qed.

Lemma check_compiles_unused_patterns_witness :
  should_check (Collaborators := env_pairs)
    (data (example_store cd_bad_version_pattern)) = true
  /\ checker_data (data (example_store cd_bad_version_pattern)) !! "url"
     = Some (VStr "https://example.com/downloads/")
  /\ _get_pattern (env := env_pairs)
       (checker_data (data (example_store cd_bad_version_pattern))) "pattern"
     = Ok (Some pattern_pair)
  /\ checker_data (data (example_store cd_bad_version_pattern))
       !! "version-pattern" = Some (VStr "v(\S+")
  /\ re_compile (Collaborators := env_pairs) (VStr "v(\S+")
     = Raise (Foreign [OtherClass "re.error"])
  /\ (forall k, Foreign [OtherClass "re.error"] <> KeyError k)
  /\ check (env := env_pairs) (example_store cd_bad_version_pattern)
     = (Raise (Foreign [OtherClass "re.error"]),
        example_store cd_bad_version_pattern).
Proof.
  repeat (split; [reflexivity|]). split; [discriminate|].
  apply (check_compiles_unused_patterns (env := env_pairs)
           (example_store cd_bad_version_pattern)
           (VStr "https://example.com/downloads/") (VStr "v(\S+")
           (Some pattern_pair) (Foreign [OtherClass "re.error"]));
    try reflexivity; discriminate.
Defined.

(** ** The selection *)

Lemma LooseVersion_gt_raise v w e :
  LooseVersion_gt v w = Raise e -> e = AttributeError \/ e = TypeError.
Proof.
  destruct (version v) as [a|] eqn:Hv; [destruct (version w) as [b|] eqn:Hw|].
  - rewrite (LooseVersion_gt_lists v w a b) by done.
    intros [-> _]%list_lt_raise. by right.
  - unfold LooseVersion_gt. rewrite LooseVersion_cmp_no_version by auto.
    intros [= <-]. by left.
  - unfold LooseVersion_gt. rewrite LooseVersion_cmp_no_version by auto.
    intros [= <-]. by left.
Qed.

Lemma max_scan_raise {A} (key : A -> LooseVersion) rest : forall best e,
  max_scan key best (key best) rest = Raise e ->
  e = AttributeError \/ e = TypeError.
Proof.
  induction rest as [|item rest IH]; intros best e; simpl; [done|].
  destruct (LooseVersion_gt (key item) (key best)) as [[]|e'] eqn:Hgt; simpl.
  - apply IH.
  - apply IH.
  - intros [= <-]. by eapply LooseVersion_gt_raise.
Qed.

Lemma py_max_member {A} (key : A -> LooseVersion) (l : list A) r :
  py_max key l = Ok r -> r ∈ l.
Proof.
  intros (pre & post & -> & _)%py_max_first_maximum.
  apply elem_of_app. right. by left.
Qed.

Lemma get_latest_member_aux {env : Collaborators} {A}
  (findall : Pattern -> string -> list A) (html : string) (pattern : Pattern)
  (sort_key : option (A -> LooseVersion)) (m : A) :
  _get_latest findall html pattern sort_key = Ok (Some m) ->
  m ∈ findall pattern html.
Proof.
  unfold _get_latest.
  destruct (findall pattern html) as [|first rest]; [done|].
  destruct sort_key as [key|].
  - destruct (Nat.eqb (length (first :: rest)) 1).
    + intros [= <-]. by left.
    + destruct (py_max key (first :: rest)) as [m'|e] eqn:Hmax; simpl; [|done].
      intros [= <-]. by eapply py_max_member.
  - intros [= <-]. by left.
Qed.

Lemma get_latest_none_aux {env : Collaborators} {A}
  (findall : Pattern -> string -> list A) (html : string) (pattern : Pattern)
  (sort_key : option (A -> LooseVersion)) :
  _get_latest findall html pattern sort_key = Ok None ->
  findall pattern html = [].
Proof.
  unfold _get_latest.
  destruct (findall pattern html) as [|first rest]; [done|].
  destruct sort_key as [key|]; [|done].
  destruct (Nat.eqb (length (first :: rest)) 1); [done|].
  by destruct (py_max key (first :: rest)).
Qed.

(** X8: [_get_latest] never makes up a match: when it returns, the
    result is [None] exactly when the pattern matches nowhere, and
    otherwise it is one of the matches that [findall] found. *)
Theorem get_latest_member {env : Collaborators} {A}
  (findall : Pattern -> string -> list A) (html : string) (pattern : Pattern)
  (sort_key : option (A -> LooseVersion)) (r : option A) :
  _get_latest findall html pattern sort_key = Ok r ->
  (r = None <-> findall pattern html = [])
  /\ (forall m, r = Some m -> m ∈ findall pattern html).
Proof.
  unfold _get_latest.
  destruct (findall pattern html) as [|first rest] eqn:Hm.
  - intros [= <-]. by split.
  - destruct sort_key as [key|].
    + destruct (Nat.eqb (length (first :: rest)) 1).
      * intros [= <-]. split; [done|]. intros m [= <-]. by left.
      * destruct (py_max key (first :: rest)) as [m|e] eqn:Hmax; simpl; [|done].
        intros [= <-]. split; [done|]. intros m' [= <-].
        by eapply py_max_member.
    + intros [= <-]. split; [done|]. intros m [= <-]. by left.
Qed.

Lemma get_latest_member_witness :
  _get_latest (env := table_env) findall1 "v1.0 v2.0 v1.5" pattern_v
    (Some LooseVersion_init) = Ok (Some "2.0")
  /\ "2.0" ∈ findall1 (Collaborators := table_env) pattern_v "v1.0 v2.0 v1.5".
Proof.
  split; [reflexivity|].
  apply (get_latest_member (env := table_env) findall1 "v1.0 v2.0 v1.5"
           pattern_v (Some LooseVersion_init) (Some "2.0"));
    reflexivity.
Defined.

(** X9: [_get_latest] raises only through the comparison of two keys: an
    exception of [_get_latest] is [AttributeError] or [TypeError], and it
    needs a sort key and at least two matches. *)
Theorem get_latest_exceptions {env : Collaborators} {A}
  (findall : Pattern -> string -> list A) (html : string) (pattern : Pattern)
  (sort_key : option (A -> LooseVersion)) (e : exn) :
  _get_latest findall html pattern sort_key = Raise e ->
  (e = AttributeError \/ e = TypeError)
  /\ is_Some sort_key
  /\ 2 <= length (findall pattern html).
Proof.
  unfold _get_latest.
  destruct (findall pattern html) as [|first [|second rest]]; [done| |].
  - by destruct sort_key.
  - destruct sort_key as [key|]; [|done].
    cbn [length Nat.eqb].
    destruct (py_max key (first :: second :: rest)) as [m|e'] eqn:Hmax;
      simpl; [done|].
    intros [= <-]. split; [|split; [done|simpl; lia]].
    by eapply (max_scan_raise key (second :: rest) first).
Qed.

Lemma get_latest_exceptions_witness :
  _get_latest (env := table_env) findall1 "v1.a v1.2" pattern_v
    (Some LooseVersion_init) = Raise TypeError
  /\ (TypeError = AttributeError \/ TypeError = TypeError)
  /\ is_Some (Some LooseVersion_init)
  /\ 2 <= length (findall1 (Collaborators := table_env) pattern_v "v1.a v1.2").
Proof.
  split; [reflexivity|].
  apply (get_latest_exceptions (env := table_env) findall1 "v1.a v1.2"
           pattern_v (Some LooseVersion_init) TypeError).
  reflexivity.
Defined.

(** ** Versions made of digits and dots *)

Lemma string_length_app a : forall b,
  String.length (a +:+ b) = String.length a + String.length b.
Proof.
  induction a as [|x a IH]; intros b; [done|].
  change (String x a +:+ b) with (String x (a +:+ b)). simpl. by rewrite IH.
Qed.

Lemma flush_digit_within run :
  (N.of_nat (String.length run) <= int_max_str_digits)%N ->
  flush Digit run = [CInt (int_of_digits 0 run)].
Proof. intros Hlen. unfold flush. by rewrite (proj2 (N.leb_le _ _) Hlen). Qed.

(** While the run being read and the rest of the text are together within
    the limit of [int], every run of digits becomes a number. *)
Lemma split_components_ints s : forall k run,
  digits_and_dots s = true -> k = Digit \/ k = Dot ->
  (N.of_nat (String.length run + String.length s) <= int_max_str_digits)%N ->
  forallb is_int (split_components k run s) = true.
Proof.
  induction s as [|c s IH]; intros k run Hs Hk Hlen.
  - cbn [split_components]. destruct Hk as [-> | ->]; [|done].
    rewrite flush_digit_within; [done|]. simpl in Hlen. lia.
  - simpl in Hs. apply andb_true_iff in Hs as [Hc Hs].
    unfold digit_or_dot in Hc. cbn [split_components].
    cbn [String.length] in Hlen.
    destruct (classify c) eqn:Hcls; try done;
      destruct Hk as [-> | ->]; cbn [char_class_eqb andb negb].
    + apply IH; auto. rewrite string_length_app. simpl. lia.
    + cbn [flush app]. apply IH; auto. simpl. lia.
    + rewrite flush_digit_within by lia. cbn [app forallb is_int andb].
      apply IH; auto. simpl. lia.
    + cbn [flush app]. apply IH; auto. simpl. lia.
Qed.

Lemma parse_numeric s :
  numeric_version s = true -> forallb is_int (parse s) = true.
Proof.
  intros [[_ Hs]%andb_true_iff Hlen]%andb_true_iff.
  apply split_components_ints; auto.
  unfold within_int_limit in Hlen. apply N.leb_le in Hlen. simpl. lia.
Qed.

Lemma comparable_ints xs : forall ys,
  forallb is_int xs = true -> forallb is_int ys = true ->
  comparable xs ys = true.
Proof.
  induction xs as [|x xs IH]; intros [|y ys]; simpl; try done.
  intros [Hx Hxs]%andb_true_iff [Hy Hys]%andb_true_iff.
  destruct (component_eqb x y); [by apply IH|]. by destruct x, y.
Qed.

Lemma numeric_gt_defined a b :
  numeric_version a = true -> numeric_version b = true ->
  is_ok (LooseVersion_gt (LooseVersion_init a) (LooseVersion_init b)) = true.
Proof.
  intros Ha Hb.
  pose proof Ha as [[Ta _]%andb_true_iff _]%andb_true_iff.
  pose proof Hb as [[Tb _]%andb_true_iff _]%andb_true_iff.
  rewrite (LooseVersion_gt_lists _ _ (parse a) (parse b));
    [| rewrite LooseVersion_init_version; by rewrite ?Ta, ?Tb ..].
  rewrite list_lt_defined. apply comparable_ints; by apply parse_numeric.
Qed.

Lemma numeric_gt_refl a :
  numeric_version a = true ->
  LooseVersion_gt (LooseVersion_init a) (LooseVersion_init a) = Ok false.
Proof.
  intros [[Ta _]%andb_true_iff _]%andb_true_iff.
  rewrite (LooseVersion_gt_lists _ _ (parse a) (parse a));
    [| rewrite LooseVersion_init_version; by rewrite ?Ta ..].
  apply list_lt_irrefl.
Qed.

(** X10: on versions that are made of digits and dots only and are not
    longer than the limit of [int] (4300 characters), the selection with
    the version order as sort key never raises, whatever the number of
    matches and of components: [_get_latest] returns, and no match has a
    key greater than the key of the match it returns.  [ver] is the version
    of a match: the match itself, or the second element of a combo match.
    A longer run of digits stays a text and can make the comparison raise. *)
Theorem get_latest_numeric {env : Collaborators} {A}
  (findall : Pattern -> string -> list A) (html : string) (pattern : Pattern)
  (ver : A -> string) :
  forallb (fun m => numeric_version (ver m)) (findall pattern html) = true ->
  exists r,
    _get_latest findall html pattern (Some (fun m => LooseVersion_init (ver m)))
      = Ok r
    /\ (r = None <-> findall pattern html = [])
    /\ forall m, r = Some m ->
         m ∈ findall pattern html
         /\ Forall (not_above (fun m => LooseVersion_init (ver m)) m)
              (findall pattern html).
Proof.
  intros Hnum. rewrite forallb_forall in Hnum.
  set (key := fun m => LooseVersion_init (ver m)).
  assert (pairwise_comparable key (findall pattern html) = true) as Hpw.
  { unfold pairwise_comparable. apply forallb_forall. intros x Hx.
    apply forallb_forall. intros y Hy. apply numeric_gt_defined; auto. }
  unfold _get_latest.
  destruct (findall pattern html) as [|first rest] eqn:Hm.
  - exists None. by repeat split.
  - destruct (Nat.eqb (length (first :: rest)) 1) eqn:Hlen.
    + exists (Some first). split; [done|]. split; [done|].
      intros m [= <-]. split; [by left|].
      destruct rest; [|done]. constructor; [|constructor].
      apply numeric_gt_refl, Hnum. by left.
    + destruct (py_max_returns key (first :: rest)) as [m Hmax]; [done|done|].
      rewrite Hmax. simpl. exists (Some m). split; [done|]. split; [done|].
      intros m' [= <-]. split; [by eapply py_max_member|].
      destruct (py_max_first_maximum key _ m Hmax) as (pre & post & Heq & Hpre & Hpost).
      rewrite Heq. apply Forall_app. split.
      * eapply Forall_impl; [exact Hpre|]. intros x Hx. by apply lt_not_gt.
      * constructor; [|done]. apply numeric_gt_refl, Hnum.
        apply list_elem_of_In. rewrite Heq. apply elem_of_app. right. by left.
Qed.

Lemma get_latest_numeric_witness :
  forallb (fun m => numeric_version (snd m))
    (findall2 (Collaborators := table_env) pattern_pair
       "a@1.9 b@1.10 c@1.10.0 d@01.2") = true
  /\ exists r,
      _get_latest (env := table_env) findall2 "a@1.9 b@1.10 c@1.10.0 d@01.2"
        pattern_pair (Some (fun m => LooseVersion_init (snd m))) = Ok r
      /\ (r = None <->
          findall2 (Collaborators := table_env) pattern_pair
            "a@1.9 b@1.10 c@1.10.0 d@01.2" = [])
      /\ forall m, r = Some m ->
           m ∈ findall2 (Collaborators := table_env) pattern_pair
                 "a@1.9 b@1.10 c@1.10.0 d@01.2"
           /\ Forall (not_above (fun m => LooseVersion_init (snd m)) m)
                (findall2 (Collaborators := table_env) pattern_pair
                   "a@1.9 b@1.10 c@1.10.0 d@01.2").
Proof.
  split; [reflexivity|].
  apply (get_latest_numeric (env := table_env) findall2
           "a@1.9 b@1.10 c@1.10.0 d@01.2" pattern_pair snd).
  reflexivity.
Defined.

(** ** The extraction *)

(** X11: with a combo pattern, the version and the URL that the
    extraction returns come from one and the same match of the page: the
    result is a match of [findall], or nothing when the pattern matches
    nowhere; and the pattern has two groups. *)
Theorem check_extraction_combo_pair {env : Collaborators} (html : string)
  (p : Pattern) (vp up : option Pattern) (t : option value) (sm : value)
  (lv lu : option string) :
  check_extraction html (Some p) vp up t sm = Ok (lv, lu) ->
  groups p = 2
  /\ ((lv = None /\ lu = None /\ findall2 p html = [])
      \/ exists u v, lv = Some v /\ lu = Some u /\ (u, v) ∈ findall2 p html).
Proof.
  unfold check_extraction, py_assert.
  destruct (Nat.eqb (groups p) 2) eqn:Hg; [|done]. simpl.
  apply Nat.eqb_eq in Hg.
  destruct (_get_latest findall2 html p _) as [[[u v]|]|e] eqn:Hsel; simpl;
    [| |done].
  - intros [= <- <-]. split; [done|]. right. exists u, v.
    split; [done|]. split; [done|].
    by apply (get_latest_member_aux findall2 html p _ _ Hsel).
  - intros [= <- <-]. split; [done|]. left. split; [done|]. split; [done|].
    by apply (get_latest_none_aux findall2 html p _ Hsel).
Qed.

Lemma check_extraction_combo_pair_witness :
  check_extraction (env := env_pairs) "/d/app-2.0.tar.gz@2.0 /d/app-2.1.tar.gz@2.1"
    (Some pattern_pair) None None None (VBool true)
    = Ok (Some "2.1", Some "/d/app-2.1.tar.gz")
  /\ groups (Collaborators := env_pairs) pattern_pair = 2
  /\ ((Some "2.1" = None /\ Some "/d/app-2.1.tar.gz" = None
       /\ findall2 (Collaborators := env_pairs) pattern_pair
            "/d/app-2.0.tar.gz@2.0 /d/app-2.1.tar.gz@2.1" = [])
      \/ exists u v, Some "2.1" = Some v /\ Some "/d/app-2.1.tar.gz" = Some u
           /\ (u, v) ∈ findall2 (Collaborators := env_pairs) pattern_pair
                         "/d/app-2.0.tar.gz@2.0 /d/app-2.1.tar.gz@2.1").
Proof.
  split; [reflexivity|].
  apply (check_extraction_combo_pair (env := env_pairs)
           "/d/app-2.0.tar.gz@2.0 /d/app-2.1.tar.gz@2.1" pattern_pair
           None None None (VBool true)).
  reflexivity.
Defined.

(** X12: without a combo pattern, a URL template takes precedence over
    the URL pattern: when the version pattern selects a non-empty version
    and the template is truthy, the URL is the expansion of the template
    with that version, an exception of the expansion is raised, and the
    URL pattern is not consulted: neither its matches nor its number of
    groups matter. *)
Theorem check_extraction_template_first {env : Collaborators} (html : string)
  (p : Pattern) (up : option Pattern) (t sm : value) (v : string) :
  groups p = 1 ->
  _get_latest findall1 html p
    (if truthy sm then Some LooseVersion_init else None) = Ok (Some v) ->
  str_truthy v = true -> truthy t = true ->
  check_extraction html None (Some p) up (Some t) sm
    = match _substitute_placeholders t v with
      | Ok u => Ok (Some v, Some u)
      | Raise e => Raise e
      end.
Proof.
  intros Hg Hsel Hv Ht. unfold check_extraction, py_assert.
  rewrite Hg. simpl. rewrite Hsel. simpl. rewrite Hv, Ht. simpl.
  by destruct (_substitute_placeholders t v).
Qed.

Lemma check_extraction_template_first_witness :
  groups (Collaborators := env_versions) pattern_v = 1
  /\ _get_latest (env := env_versions) findall1 "v1.0 v2.0" pattern_v
       (if truthy (VBool true) then Some LooseVersion_init else None)
     = Ok (Some "2.0")
  /\ str_truthy "2.0" = true
  /\ truthy (VStr "https://example.com/d/app-$version.tar.gz") = true
  /\ check_extraction (env := env_versions) "v1.0 v2.0" None (Some pattern_v)
       (Some pattern_v_ungrouped)
       (Some (VStr "https://example.com/d/app-$version.tar.gz")) (VBool true)
     = Ok (Some "2.0", Some "https://example.com/d/app-2.0.tar.gz").
Proof.
  repeat (split; [reflexivity|]).
  apply (check_extraction_template_first (env := env_versions) "v1.0 v2.0"
           pattern_v (Some pattern_v_ungrouped)
           (VStr "https://example.com/d/app-$version.tar.gz") (VBool true)
           "2.0"); reflexivity.
Defined.

(** X13: with [sort-matches] falsy the version order is not consulted:
    the extraction takes the first match of each pattern it uses, in the
    order of the page, and it cannot raise once the numbers of groups are
    right. *)
Theorem check_extraction_unsorted {env : Collaborators} (html : string)
  (sm : value) :
  truthy sm = false ->
  (forall p vp up t, groups p = 2 ->
     check_extraction html (Some p) vp up t sm
       = Ok (match findall2 p html with
             | [] => (None, None)
             | (u, v) :: _ => (Some v, Some u)
             end))
  /\ (forall pv pu t, groups pv = 1 -> groups pu = 1 -> opt_truthy t = false ->
        check_extraction html None (Some pv) (Some pu) t sm
          = Ok (head (findall1 pv html), head (findall1 pu html))).
Proof.
  intros Hsm. split.
  - intros p vp up t Hg. unfold check_extraction, py_assert, _get_latest.
    rewrite Hg, Hsm. simpl. by destruct (findall2 p html) as [|[u v] rest].
  - intros pv pu t Hv Hu Ht. unfold check_extraction, py_assert, _get_latest.
    rewrite Hv, Hu, Hsm. simpl.
    destruct (findall1 pv html) as [|v vs], (findall1 pu html) as [|u us];
      simpl; destruct t as [t|]; simpl in Ht; rewrite ?Ht, ?andb_false_r;
      reflexivity.
Qed.

Lemma check_extraction_unsorted_witness :
  truthy (VBool false) = false
  /\ groups (Collaborators := env_versions) pattern_v = 1
  /\ groups (Collaborators := env_versions) pattern_word = 1
  /\ opt_truthy None = false
  /\ check_extraction (env := env_versions) "v1.0 v2.0" None (Some pattern_v)
       (Some pattern_word) None (VBool false)
     = Ok (Some "1.0", Some "v1.0").
Proof.
  repeat (split; [reflexivity|]).
  destruct (check_extraction_unsorted (env := env_versions) "v1.0 v2.0"
              (VBool false)) as [_ Hpair]; [reflexivity|].
  apply (Hpair pattern_v pattern_word None); reflexivity.
Defined.

(** ** Templates *)

Lemma lex_literal_prefix pre : forall rest,
  dollar_free pre = true ->
  lex MText (pre +:+ rest) = (literals pre ++ lex MText rest)%list.
Proof.
  induction pre as [|c pre IH]; intros rest Hfree; [done|].
  simpl in Hfree. apply andb_true_iff in Hfree as [Hc Hfree].
  change (String c pre +:+ rest) with (String c (pre +:+ rest)).
  cbn [lex literals app]. apply negb_true_iff in Hc. rewrite Hc.
  by rewrite IH.
Qed.

Lemma string_app_empty s : s +:+ "" = s.
Proof.
  induction s as [|c s IH]; [done|].
  change (String c s +:+ "") with (String c (s +:+ "")). by rewrite IH.
Qed.

Lemma lex_literal s : dollar_free s = true -> lex MText s = literals s.
Proof.
  intros Hfree. pose proof (lex_literal_prefix s "" Hfree) as Hlex.
  rewrite string_app_empty in Hlex. rewrite Hlex. simpl. by rewrite app_nil_r.
Qed.

Lemma substitute_literals mapping s : forall ts,
  substitute_tokens mapping (literals s ++ ts)
    = match substitute_tokens mapping ts with
      | Ok r => Ok (s +:+ r)
      | Raise e => Raise e
      end.
Proof.
  induction s as [|c s IH]; intros ts; simpl.
  - by destruct (substitute_tokens mapping ts).
  - rewrite IH. by destruct (substitute_tokens mapping ts).
Qed.

(** X14: a template without [$] is its own expansion, for every version
    that is not empty. *)
Theorem substitute_placeholders_literal (template version : string) :
  dollar_free template = true -> version <> "" ->
  _substitute_placeholders (VStr template) version = Ok template.
Proof.
  intros Hfree Hne. unfold _substitute_placeholders, get_version.
  rewrite LooseVersion_init_version.
  destruct version as [|c v]; [done|]. simpl.
  unfold Template_substitute. rewrite (lex_literal _ Hfree).
  pose proof (substitute_literals
                (tmpl_vars_of (String c v) (parse (String c v))) template [])
    as Hsub.
  rewrite app_nil_r in Hsub. rewrite Hsub. simpl.
  by rewrite string_app_empty.
Qed.

Lemma substitute_placeholders_literal_witness :
  dollar_free "https://example.com/d/latest.tar.gz" = true
  /\ "2.1" <> ""
  /\ _substitute_placeholders (VStr "https://example.com/d/latest.tar.gz") "2.1"
     = Ok "https://example.com/d/latest.tar.gz".
Proof.
  split; [reflexivity|]. split; [discriminate|].
  apply (substitute_placeholders_literal
           "https://example.com/d/latest.tar.gz" "2.1");
    [reflexivity | discriminate].
Defined.

(** X15: the placeholder [${version}] stands for the version string as it
    is, whatever its characters: between two texts without [$], the
    expansion is the first text, the version, and the second text. *)
Theorem substitute_placeholders_version (pre post version : string) :
  dollar_free pre = true -> dollar_free post = true -> version <> "" ->
  _substitute_placeholders (VStr (pre +:+ "${version}" +:+ post)) version
    = Ok (pre +:+ version +:+ post).
Proof.
  intros Hpre Hpost Hne. unfold _substitute_placeholders, get_version.
  rewrite LooseVersion_init_version.
  destruct version as [|c v]; [done|]. simpl.
  unfold Template_substitute. rewrite (lex_literal_prefix _ _ Hpre).
  change (lex MText ("${version}" +:+ post))
    with (TBraced "version" :: lex MText post).
  rewrite (lex_literal _ Hpost), substitute_literals.
  cbn [substitute_tokens convert].
  unfold tmpl_vars_of. rewrite fill_vars_lookup_version, lookup_singleton_eq.
  simpl.
  pose proof (substitute_literals
                (fill_vars 0 (parse (String c v))
                   {["version" := CStr (String c v)]}) post []) as Hsub.
  rewrite app_nil_r in Hsub. rewrite Hsub. simpl.
  by rewrite string_app_empty.
Qed.

Lemma substitute_placeholders_version_witness :
  dollar_free "https://example.com/d/app-" = true
  /\ dollar_free ".tar.gz" = true
  /\ "2.1-RC1" <> ""
  /\ _substitute_placeholders
       (VStr ("https://example.com/d/app-" +:+ "${version}" +:+ ".tar.gz"))
       "2.1-RC1"
     = Ok ("https://example.com/d/app-" +:+ "2.1-RC1" +:+ ".tar.gz").
Proof.
  split; [reflexivity|]. split; [reflexivity|]. split; [discriminate|].
  apply (substitute_placeholders_version
           "https://example.com/d/app-" ".tar.gz" "2.1-RC1");
    [reflexivity | reflexivity | discriminate].
Defined.

(** ** The components of a version *)

Lemma split_components_dot_run run s :
  split_components Dot run s = split_components Dot "" s.
Proof.
  destruct s as [|c s]; [done|]. simpl.
  by destruct (classify c).
Qed.

Lemma split_components_app_dot s1 s2 : forall k run,
  split_components k run (s1 +:+ String "."%char s2)
    = (split_components k run s1 ++ parse s2)%list.
Proof.
  induction s1 as [|c s1 IH]; intros k run.
  - change ("" +:+ String "."%char s2) with (String "."%char s2).
    cbn [split_components]. change (classify "."%char) with Dot.
    replace (char_class_eqb Dot k && negb (char_class_eqb Dot Dot))
      with false by (by destruct k).
    unfold parse. by rewrite (split_components_dot_run (String "."%char "")).
  - change (String c s1 +:+ String "."%char s2)
      with (String c (s1 +:+ String "."%char s2)).
    cbn [split_components].
    destruct (char_class_eqb (classify c) k
              && negb (char_class_eqb (classify c) Dot)).
    + apply IH.
    + rewrite IH. by rewrite app_assoc.
Qed.

(** X16: a dot separates: the components of [a.b] are the components of
    [a] followed by the components of [b], so that the placeholders
    [version<i>], [major], [minor] and [patch] of a dotted version are
    those of its parts. *)
Theorem parse_dot (s1 s2 : string) :
  parse (s1 +:+ "." +:+ s2) = (parse s1 ++ parse s2)%list.
Proof. unfold parse at 1 2. apply split_components_app_dot. Qed.

(** *** Printing a number and reading it back *)

Lemma int_of_digits_app a : forall acc b,
  int_of_digits acc (a +:+ b) = int_of_digits (int_of_digits acc a) b.
Proof.
  induction a as [|c a IH]; intros acc b; [done|].
  change (String c a +:+ b) with (String c (a +:+ b)). simpl. apply IH.
Qed.

Lemma all_digits_app a : forall b,
  all_digits a = true -> all_digits b = true -> all_digits (a +:+ b) = true.
Proof.
  induction a as [|c a IH]; intros b Ha Hb; [done|].
  change (String c a +:+ b) with (String c (a +:+ b)). simpl in *.
  destruct (classify c); try done. by apply IH.
Qed.

Lemma string_app_assoc a : forall b c, (a +:+ b) +:+ c = a +:+ (b +:+ c).
Proof.
  induction a as [|x a IH]; intros b c; [done|].
  change (String x a +:+ b) with (String x (a +:+ b)).
  change (String x (a +:+ b) +:+ c) with (String x ((a +:+ b) +:+ c)).
  change (String x a +:+ (b +:+ c)) with (String x (a +:+ (b +:+ c))).
  by rewrite IH.
Qed.

Lemma pretty_N_char_digit (d : N) :
  (d < 10)%N ->
  classify (pretty_N_char d) = Digit
  /\ (N_of_ascii (pretty_N_char d) - 48 = d)%N.
Proof.
  intros Hd.
  assert (d = 0 \/ d = 1 \/ d = 2 \/ d = 3 \/ d = 4 \/ d = 5 \/ d = 6
          \/ d = 7 \/ d = 8 \/ d = 9)%N as Hcases by lia.
  destruct Hcases as [->|[->|[->|[->|[->|[->|[->|[->|[->| ->]]]]]]]]];
    by vm_compute.
Qed.

(** The digits that [pretty_N_go] puts before its accumulator. *)
Lemma pretty_N_go_digits (x : N) : forall s,
  exists D,
    pretty_N_go x s = D +:+ s
    /\ all_digits D = true
    /\ (forall acc,
          int_of_digits acc D
            = (acc * 10 ^ N.of_nat (String.length D) + x)%N)
    /\ ((0 < x)%N -> D <> "").
Proof.
  induction (N.lt_wf_0 x) as [x _ IH]; intros s.
  destruct (decide (x = 0%N)) as [->|Hx].
  - exists "". rewrite pretty_N_go_0. repeat split; [|lia].
    intros acc. simpl. lia.
  - rewrite pretty_N_go_step by lia.
    destruct (IH (x `div` 10)%N) with
      (s := String (pretty_N_char (x `mod` 10)) s)
      as (D & Hgo & Hdig & Hval & _); [apply N.div_lt; lia|].
    destruct (pretty_N_char_digit (x `mod` 10))
      as [Hcls Hnum]; [apply N.mod_lt; lia|].
    exists (D +:+ String (pretty_N_char (x `mod` 10)) "").
    split; [|split; [|split]].
    + rewrite Hgo. by rewrite string_app_assoc.
    + apply all_digits_app; [done|]. simpl. by rewrite Hcls.
    + intros acc. rewrite int_of_digits_app, Hval. simpl. rewrite Hnum.
      rewrite string_length_app. simpl.
      rewrite Nat.add_1_r, Nat2N.inj_succ, N.pow_succ_r'.
      pose proof (N.div_mod x 10). lia.
    + intros _. by destruct D.
Qed.

Lemma split_components_digits s : forall run,
  all_digits s = true ->
  split_components Digit run s = flush Digit (run +:+ s).
Proof.
  induction s as [|c s IH]; intros run Hs; cbn [split_components].
  - by rewrite string_app_empty.
  - simpl in Hs. destruct (classify c) eqn:Hc; try done.
    cbn [char_class_eqb andb negb].
    rewrite IH by done. by rewrite string_app_assoc.
Qed.

(** A run of digits within the limit of [int] is one number. *)
Lemma parse_digits (d : string) :
  all_digits d = true -> d <> "" -> within_int_limit d = true ->
  parse d = [CInt (int_of_digits 0 d)].
Proof.
  intros Hd Hne Hlen. destruct d as [|c d]; [done|].
  unfold parse. cbn [split_components]. simpl in Hd.
  destruct (classify c) eqn:Hc; try done.
  cbn [char_class_eqb andb negb flush app].
  rewrite split_components_digits by done.
  change (String c "" +:+ d) with (String c d).
  apply flush_digit_within. unfold within_int_limit in Hlen.
  by apply N.leb_le.
Qed.

(** X17: a number written by the template and read back as a version is
    the same number, as long as its text is within the limit of [int]
    (4300 digits): the text of a numeric component has that component,
    and nothing else, as its components. *)
Theorem parse_py_str_int (n : N) :
  within_int_limit (py_str (CInt n)) = true ->
  parse (py_str (CInt n)) = [CInt n].
Proof.
  cbn [py_str]. unfold pretty, pretty_N. case_decide as Hn; [by subst|].
  destruct (pretty_N_go_digits n "") as (D & Hgo & Hdig & Hval & Hne).
  rewrite Hgo, string_app_empty. intros Hlen.
  rewrite parse_digits; [| done | apply Hne; lia | done].
  by rewrite (Hval 0%N).
Qed.

Lemma parse_py_str_int_witness :
  within_int_limit (py_str (CInt 20261104)) = true
  /\ parse (py_str (CInt 20261104)) = [CInt 20261104].
Proof.
  split; [reflexivity|]. apply (parse_py_str_int 20261104). reflexivity.
Defined.

(** X18: for a version that starts with a number and a dot, the number
    being within the limit of [int] (4300 digits), the placeholder
    [${major}] stands for that number in decimal, without its leading
    zeros, and not for the text of the version. *)
Theorem substitute_placeholders_major (pre post d rest : string) :
  dollar_free pre = true -> dollar_free post = true ->
  all_digits d = true -> d <> "" -> within_int_limit d = true ->
  _substitute_placeholders (VStr (pre +:+ "${major}" +:+ post))
    (d +:+ "." +:+ rest)
    = Ok (pre +:+ pretty (int_of_digits 0 d) +:+ post).
Proof.
  intros Hpre Hpost Hd Hne Hlen.
  unfold _substitute_placeholders, get_version.
  rewrite LooseVersion_init_version.
  assert (str_truthy (d +:+ "." +:+ rest) = true) as ->
    by (by destruct d).
  simpl. unfold parse at 1.
  change (d +:+ "." +:+ rest) with (d +:+ String "."%char rest).
  rewrite split_components_app_dot. fold (parse d).
  rewrite (parse_digits d) by done.
  unfold Template_substitute. rewrite (lex_literal_prefix _ _ Hpre).
  change (lex MText ("${major}" +:+ post))
    with (TBraced "major" :: lex MText post).
  rewrite (lex_literal _ Hpost), substitute_literals.
  cbn [substitute_tokens convert].
  unfold tmpl_vars_of.
  rewrite (fill_vars_lookup_alias _ "major" 0) by auto.
  rewrite decide_True by (simpl; lia). simpl.
  match goal with
  | |- context [substitute_tokens ?m (literals post)] =>
      pose proof (substitute_literals m post []) as Hsub
  end.
  rewrite app_nil_r in Hsub. rewrite Hsub. simpl.
  by rewrite string_app_empty.
Qed.

Lemma substitute_placeholders_major_witness :
  dollar_free "https://example.com/v" = true
  /\ dollar_free "/app.tar.gz" = true
  /\ all_digits "03" = true /\ "03" <> "" /\ within_int_limit "03" = true
  /\ _substitute_placeholders
       (VStr ("https://example.com/v" +:+ "${major}" +:+ "/app.tar.gz"))
       ("03" +:+ "." +:+ "4-rc1")
     = Ok ("https://example.com/v" +:+ pretty (int_of_digits 0 "03")
           +:+ "/app.tar.gz").
Proof.
  split; [reflexivity|]. split; [reflexivity|]. split; [reflexivity|].
  split; [discriminate|]. split; [reflexivity|].
  apply (substitute_placeholders_major "https://example.com/v" "/app.tar.gz"
           "03" "4-rc1");
    [reflexivity | reflexivity | reflexivity | discriminate | reflexivity].
Defined.

(** ** The metadata call *)


